(** * Einstein primary-source preserver and ADS discovery tool: a shallow embedding

    Source files:
    - [einstein_primary_preserver.py]  (module [Preserver] below)
    - [einstein_missing_from_ads.py]   (module [Discovery] below)

    Python [str] values are modelled as [string] (sequences of 8-bit
    characters); [str.lower], [str.strip] and friends act on the ASCII range,
    which is where every constant of the two programs lives.  Titles are
    the exception: [norm_title] and [year_int] read a character as the
    code point of the same number and follow Python's tables up to
    U+00FF.  Python [int] is [Z]. *)

From Stdlib Require Import ZArith QArith Ascii String.
From stdpp Require Import base option list strings gmap.

Local Open Scope Z_scope.

(** ** Python string primitives used by the two programs *)
Module Py.

(** [s.startswith(p)] *)
Fixpoint startswith (s p : string) {struct p} : bool :=
  match p with
  | EmptyString => true
  | String c p' =>
      match s with
      | EmptyString => false
      | String d s' => if Ascii.eqb c d then startswith s' p' else false
      end
  end.

(** [needle in hay] *)
Fixpoint contains (needle hay : string) : bool :=
  startswith hay needle ||
  match hay with
  | EmptyString => false
  | String _ hay' => contains needle hay'
  end.

(** [s.endswith(suffix)] *)
Fixpoint endswith (s suffix : string) : bool :=
  String.eqb s suffix ||
  match s with
  | EmptyString => false
  | String _ s' => endswith s' suffix
  end.

Definition is_upper (c : ascii) : bool :=
  let n := N_of_ascii c in ((65 <=? n) && (n <=? 90))%N.

Definition is_lower (c : ascii) : bool :=
  let n := N_of_ascii c in ((97 <=? n) && (n <=? 122))%N.

Definition is_digit (c : ascii) : bool :=
  let n := N_of_ascii c in ((48 <=? n) && (n <=? 57))%N.

Definition is_alpha (c : ascii) : bool := is_upper c || is_lower c.

Definition lower_char (c : ascii) : ascii :=
  if is_upper c then ascii_of_N (N_of_ascii c + 32) else c.

(** [s.lower()] *)
Fixpoint lower (s : string) : string :=
  match s with
  | EmptyString => EmptyString
  | String c s' => String (lower_char c) (lower s')
  end.

(** [c.isspace()] on the ASCII range: TAB..CR, FS..US and the blank. *)
Definition is_space (c : ascii) : bool :=
  let n := N_of_ascii c in
  (((9 <=? n) && (n <=? 13)) || ((28 <=? n) && (n <=? 32)))%N.

(** [s.lstrip(chars)] with the character set given as a predicate. *)
Fixpoint lstrip_by (p : ascii -> bool) (s : string) : string :=
  match s with
  | EmptyString => EmptyString
  | String c s' => if p c then lstrip_by p s' else s
  end.

(** [s.rstrip(chars)] *)
Fixpoint rstrip_by (p : ascii -> bool) (s : string) : string :=
  match s with
  | EmptyString => EmptyString
  | String c s' =>
      match rstrip_by p s' with
      | EmptyString => if p c then EmptyString else String c EmptyString
      | t => String c t
      end
  end.

Definition strip_by (p : ascii -> bool) (s : string) : string :=
  rstrip_by p (lstrip_by p s).

(** [s.strip()] *)
Definition strip (s : string) : string := strip_by is_space s.

(** Truthiness of a [str]: non-empty. *)
Definition truthy (s : string) : bool :=
  match s with EmptyString => false | String _ _ => true end.

(** [x or ""] for an optional (possibly [None]) string. *)
Definition or_empty (x : option string) : string :=
  match x with
  | Some s => s
  | None => EmptyString
  end.

(** [s.replace(c, "")] for every character [c] satisfying [p]. *)
Fixpoint remove_chars (p : ascii -> bool) (s : string) : string :=
  match s with
  | EmptyString => EmptyString
  | String c s' => if p c then remove_chars p s' else String c (remove_chars p s')
  end.

(** [all(p(c) for c in s)] *)
Fixpoint all_chars (p : ascii -> bool) (s : string) : bool :=
  match s with
  | EmptyString => true
  | String c s' => p c && all_chars p s'
  end.

(** [any(p(c) for c in s)] *)
Fixpoint any_char (p : ascii -> bool) (s : string) : bool :=
  match s with
  | EmptyString => false
  | String c s' => p c || any_char p s'
  end.

(** [s.partition(c)] at the first character satisfying [p]:
    [Some (before, after)] when there is one, [None] otherwise. *)
Fixpoint split_at (p : ascii -> bool) (s : string) : option (string * string) :=
  match s with
  | EmptyString => None
  | String c s' =>
      if p c then Some (EmptyString, s')
      else match split_at p s' with
           | Some (a, b) => Some (String c a, b)
           | None => None
           end
  end.

(** The part of [s] before the first character satisfying [p]
    (all of [s] when there is none). *)
Fixpoint take_until (p : ascii -> bool) (s : string) : string :=
  match s with
  | EmptyString => EmptyString
  | String c s' => if p c then EmptyString else String c (take_until p s')
  end.

(** Specification-level relations the boolean tests decide. *)
Definition is_prefix (p s : string) : Prop := exists q, s = p +:+ q.
Definition is_suffix (h s : string) : Prop := exists p, s = p +:+ h.
Definition is_substring (h s : string) : Prop := exists p q, s = p +:+ h +:+ q.

End Py.

(** ** [urllib.parse.urlparse(url).netloc]

    The standard-library parser, as far as the [netloc] field goes
    ([urlsplit]): strip leading C0 controls and blanks, delete TAB, CR and LF,
    detach a syntactically valid scheme, and read the authority after ["//"]
    up to the first of [/ ? #].  A [ValueError] is [None].  Two checks of
    the library depend on tables outside this development (the [ipaddress]
    grammar for bracketed hosts, NFKC normalisation for non-ASCII hosts);
    they are taken as parameters. *)
Module UrlLib.

Definition c0_or_space (c : ascii) : bool := (N_of_ascii c <=? 32)%N.

Definition unsafe_byte (c : ascii) : bool :=
  let n := N_of_ascii c in ((n =? 9) || (n =? 13) || (n =? 10))%N.

Definition scheme_char (c : ascii) : bool :=
  Py.is_alpha c || Py.is_digit c ||
  Ascii.eqb c "+" || Ascii.eqb c "-" || Ascii.eqb c ".".

Definition is_colon (c : ascii) : bool := Ascii.eqb c ":".

Definition netloc_delim (c : ascii) : bool :=
  Ascii.eqb c "/" || Ascii.eqb c "?" || Ascii.eqb c "#".

Definition is_ascii (c : ascii) : bool := (N_of_ascii c <? 128)%N.

(** The characters of an ordinary host name: letters, digits, hyphen, dot. *)
Definition host_char (c : ascii) : bool :=
  Py.is_alpha c || Py.is_digit c || Ascii.eqb c "-" || Ascii.eqb c ".".

(** The text left after a leading [scheme:] has been detached. *)
Definition drop_scheme (url : string) : string :=
  match url with
  | EmptyString => url
  | String c0 _ =>
      match Py.split_at is_colon url with
      | Some (String _ _ as pre, rest) =>
          if Py.is_alpha c0 && Py.all_chars scheme_char pre then rest else url
      | _ => url
      end
  end.

(** [_check_bracketed_netloc] and [_checknetloc]: [true] when the check
    passes, [false] when it raises. *)
Record Checks := {
  check_bracketed_netloc : string -> bool;
  checknetloc : string -> bool
}.

Definition urlparse_netloc (lib : Checks) (url0 : string) : option string :=
  let url := Py.remove_chars unsafe_byte (Py.lstrip_by c0_or_space url0) in
  let url := drop_scheme url in
  match url with
  | String "/" (String "/" rest) =>
      let netloc := Py.take_until netloc_delim rest in
      let has_open := Py.any_char (Ascii.eqb "[") netloc in
      let has_close := Py.any_char (Ascii.eqb "]") netloc in
      if (has_open && negb has_close) || (has_close && negb has_open) then None
      else if has_open && has_close && negb (check_bracketed_netloc lib netloc) then None
      else if Py.truthy netloc && negb (Py.all_chars is_ascii netloc)
              && negb (checknetloc lib netloc) then None
      else Some netloc
  | _ => Some EmptyString
  end.

End UrlLib.

(** ** [einstein_primary_preserver.py] *)
Module Preserver.

Definition PRIMARY_WHITELIST : list string :=
  [ "doi.org";
    "onlinelibrary.wiley.com";
    "ui.adsabs.harvard.edu";
    "adsabs.harvard.edu";
    "archive.org";
    "echo.mpiwg-berlin.mpg.de";
    "mpiwg-berlin.mpg.de";
    "digi.ub.uni-heidelberg.de";
    "heidicon.ub.uni-heidelberg.de";
    "retro.seals.ch";
    "e-periodica.ch";
    "e-rara.ch";
    "journals.aps.org";
    "projecteuclid.org";
    "jstor.org";
    "gallica.bnf.fr";
    "nobelprize.org";
    "nature.com";
    "scientificamerican.com";
    "link.springer.com";
    "springer.com";
    "gutenberg.org" ].

Definition VENUE_KEYWORDS : list string :=
  [ "Annalen der Physik";
    "Sitzungsberichte der Preußischen Akademie";
    "Physikalische Zeitschrift";
    "Zeitschrift für Physik";
    "Physical Review";
    "Reviews of Modern Physics";
    "Journal of the Franklin Institute";
    "Annals of Mathematics";
    "Canadian Journal of Mathematics";
    "Nature";
    "Science";
    "Comptes Rendus" ].

(** *** Pure helpers *)

(** [any(host.endswith(h) or h in host for h in hosts)] *)
Definition host_matches (hosts : list string) (host : string) : bool :=
  existsb (fun h => Py.endswith host h || Py.contains h host) hosts.

(** [safe_slug]: drop every character outside [\w \s - .], strip, turn
    each run of white space into one underscore, cut at [maxlen], and
    fall back to ["untitled"].  Characters above the ASCII range are kept
    (they are the bytes of letters in the titles the tool handles). *)
Definition slug_keep (c : ascii) : bool :=
  Py.is_alpha c || Py.is_digit c || Ascii.eqb c "_" || Py.is_space c ||
  Ascii.eqb c "-" || Ascii.eqb c "." || negb (UrlLib.is_ascii c).

Fixpoint squeeze_spaces (in_run : bool) (s : string) : string :=
  match s with
  | EmptyString => EmptyString
  | String c s' =>
      if Py.is_space c
      then if in_run then squeeze_spaces true s'
           else String "_" (squeeze_spaces true s')
      else String c (squeeze_spaces false s')
  end.

Fixpoint take_chars (n : nat) (s : string) : string :=
  match n, s with
  | S n', String c s' => String c (take_chars n' s')
  | _, _ => EmptyString
  end.

Definition safe_slug (s : string) : string :=
  let s := Py.strip (Py.remove_chars (fun c => negb (slug_keep c)) s) in
  let s := squeeze_spaces false s in
  let s := take_chars 140 s in
  if Py.truthy s then s else "untitled".

(** [guess_pdf] *)
Definition guess_pdf (url : string) : bool :=
  let p := Py.lower url in
  Py.endswith p ".pdf" || Py.contains "pdf" p || Py.contains "format=pdf" p.

(** [os.path.join(a, b)] and [os.path.basename(p)] (POSIX). *)
Definition path_join (a b : string) : string :=
  if Py.startswith b "/" then b
  else if negb (Py.truthy a) || Py.endswith a "/" then a +:+ b
  else a +:+ "/" +:+ b.

Fixpoint basename (p : string) : string :=
  match p with
  | EmptyString => EmptyString
  | String c p' =>
      if Py.any_char (Ascii.eqb "/") p then basename p' else p
  end.

(** The integer part of the delay of [backoff_sleep]. *)
Definition backoff_base (attempt : Z) : Z := Z.min 60 (2 ^ attempt).

(** Statuses on which the retry loop sleeps and tries again. *)
Definition retryable_status (code : Z) : bool :=
  (code =? 429) || (code =? 403) || (code =? 500) ||
  (code =? 502) || (code =? 503) || (code =? 504).

(** *** Data *)

(** One bibliography item, each field as [str(rec.get(key, ""))]. *)
Record Rec := {
  rec_title : string;
  rec_year : string;
  rec_doi : string;
  rec_bibcode : string;
  rec_url_hint : string
}.

(** What an item of the input holds under one key: no such key (a JSONL
    line without it, a CSV file without the column), an empty CSV cell
    (which [pd.read_csv] reads as the float NaN), a JSON [null], or any
    other value, given by its [str()]. *)
Inductive Cell :=
| NoKey
| EmptyCell
| NullValue
| Value (s : string).

(** [str(rec.get(key, ""))] *)
Definition str_of_cell (c : Cell) : string :=
  match c with
  | NoKey => ""
  | EmptyCell => "nan"
  | NullValue => "None"
  | Value s => s
  end.

(** An element of [items], as [df.to_dict(orient="records")] or
    [json.loads(line)] delivers it. *)
Record Item := {
  item_title : Cell;
  item_year : Cell;
  item_doi : Cell;
  item_bibcode : Cell;
  item_url_hint : Cell
}.

Definition rec_of_item (it : Item) : Rec :=
  {| rec_title := str_of_cell (item_title it);
     rec_year := str_of_cell (item_year it);
     rec_doi := str_of_cell (item_doi it);
     rec_bibcode := str_of_cell (item_bibcode it);
     rec_url_hint := str_of_cell (item_url_hint it) |}.

(** What the two PDF libraries read from a file: the page count and the
    text of the first [min(3, pages)] pages. *)
Record PdfInfo := { pdf_pages : Z; pdf_text : string }.

(** A file on disk, by what the program observes of its bytes: the parse
    ([None] when [PdfReader] or the text extraction raises), the size in
    bytes, and the SHA-256 hex digest. *)
Record File := {
  file_pdf : option PdfInfo;
  file_size : Z;
  file_digest : string
}.

(** The dictionary returned by [validate_pdf]. *)
Record Checks := {
  c_has_einstein : bool;
  c_has_venue : bool;
  c_page_sane : bool;
  c_valid_primary : bool;
  c_text_len : Z;
  c_pages : Z;
  c_host : string
}.

(** The ledger entry built by [fetch_one].  The key [valid_primary] is
    absent ([None]) until a [status.update(... **checks)]. *)
Record Status := {
  title : string;
  year : string;
  chosen_url : option string;
  saved_as : option string;
  sha256 : option string;
  validated : bool;
  has_einstein : bool;
  has_venue : bool;
  page_sane : bool;
  note : string;
  text_len : Z;
  pages : Z;
  host : string;
  valid_primary : option bool
}.

Definition set_note (st : Status) (n : string) : Status :=
  {| title := title st; year := year st; chosen_url := chosen_url st;
     saved_as := saved_as st; sha256 := sha256 st; validated := validated st;
     has_einstein := has_einstein st; has_venue := has_venue st;
     page_sane := page_sane st; note := n; text_len := text_len st;
     pages := pages st; host := host st; valid_primary := valid_primary st |}.

Definition set_chosen_url (st : Status) (u : string) : Status :=
  {| title := title st; year := year st; chosen_url := Some u;
     saved_as := saved_as st; sha256 := sha256 st; validated := validated st;
     has_einstein := has_einstein st; has_venue := has_venue st;
     page_sane := page_sane st; note := note st; text_len := text_len st;
     pages := pages st; host := host st; valid_primary := valid_primary st |}.

(** [status.update({"saved_as": p, "sha256": h, **checks})] *)
Definition update_saved_hashed (st : Status) (p h : string) (c : Checks) : Status :=
  {| title := title st; year := year st; chosen_url := chosen_url st;
     saved_as := Some p; sha256 := Some h; validated := validated st;
     has_einstein := c_has_einstein c; has_venue := c_has_venue c;
     page_sane := c_page_sane c; note := note st; text_len := c_text_len c;
     pages := c_pages c; host := c_host c;
     valid_primary := Some (c_valid_primary c) |}.

(** [status.update({"saved_as": p, **checks, "note": n})] *)
Definition update_saved_noted (st : Status) (p : string) (c : Checks) (n : string) : Status :=
  {| title := title st; year := year st; chosen_url := chosen_url st;
     saved_as := Some p; sha256 := sha256 st; validated := validated st;
     has_einstein := c_has_einstein c; has_venue := c_has_venue c;
     page_sane := c_page_sane c; note := n; text_len := c_text_len c;
     pages := c_pages c; host := c_host c;
     valid_primary := Some (c_valid_primary c) |}.

(** The command-line arguments the pipeline reads. *)
Record Args := {
  out : string;
  retries : Z;
  allow_licensed : bool;
  use_browser : bool;
  insecure : bool;
  accept_scan_only : bool;
  trust_host : list string
}.

Definition DEFAULT_TRUSTED : list string :=
  [ "adsabs.harvard.edu"; "ui.adsabs.harvard.edu"; "archive.org";
    "echo.mpiwg-berlin.mpg.de"; "digi.ub.uni-heidelberg.de" ].

(** [trusted_hosts] of [main]: the set of the [--trust-host] values and the
    five defaults, as a list. *)
Definition trusted_hosts (args : Args) : list string :=
  elements (list_to_set (trust_host args) ∪ list_to_set DEFAULT_TRUSTED : gset string).

(** *** The outside world *)

Inductive Body :=
| BodyOk (f : File)
| BodyRaised (msg : string) (partial : File).

(** A reply to [sess.get]: status code, the [Content-Type] header ([""]
    when absent), the URL after redirects, and the streamed body. *)
Record Response := {
  status_code : Z;
  content_type : string;
  final_url : string;
  body : Body
}.

Inductive GetOutcome :=
| GetRaised (msg : string)
| GetReplied (r : Response).

Record DoiReply := { doi_status_code : Z; doi_final_url : string }.

(** The JSON of the open-access lookup; [None] is a missing key or
    [null]. *)
Record OaLocation := { url_for_pdf : option string }.

Record UnpaywallData := {
  best_oa_location : option OaLocation;
  oa_locations : option (list OaLocation)
}.

Record UnpaywallReply := {
  up_status_code : Z;
  up_json : option UnpaywallData
}.

(** A value of [random.random()]: a number from 0 up to, but not
    including, 1. *)
Record Fraction := {
  fr_value : Q;
  fr_range : Qle_bool 0 fr_value && negb (Qle_bool 1 fr_value) = true
}.

(** Everything [fetch_one] asks of its surroundings.  The [nat] argument
    of [sess_get] counts the GETs the record has issued so far, that of
    [random_random] the draws of [random.random()]; a [client.get] or an
    engine that raises gives [None]. *)
Record Env := {
  urllib : UrlLib.Checks;
  HAVE_PDFKIT : bool;
  HAVE_PLAYWRIGHT : bool;
  UNPAYWALL_EMAIL : string;
  ADS_TOKEN : string;
  client_get_doi : string -> option DoiReply;
  client_get_unpaywall : string -> string -> option UnpaywallReply;
  sess_get : nat -> string -> GetOutcome;
  random_random : nat -> Fraction;
  pdfkit_from_url : string -> option File;
  playwright_print : string -> option File;
  playwright_download : string -> option File
}.

(** The effects of processing a record: a [client.get] of the resolver, a
    [sess.get] of the fetch loop, a sleep, a file written, a file moved,
    and a run of the browser or of the print-to-PDF engines. *)
Inductive Event :=
| EvLookup (url : string)
| EvGet (url : string)
| EvSleep (seconds : Q)
| EvWrite (path : string)
| EvMove (src dst : string)
| EvBrowser (url : string)
| EvRender (url : string).

(** The state one record's processing threads through: counters of the
    two oracles, the files on disk, and the effects so far, oldest first. *)
Record World := {
  w_gets : nat;
  w_draws : nat;
  w_fs : gmap string File;
  w_trace : list Event
}.

Definition log (e : Event) (w : World) : World :=
  {| w_gets := w_gets w; w_draws := w_draws w; w_fs := w_fs w;
     w_trace := w_trace w ++ [e] |}.

(** The requests of the resolver, added to the trace in the order they
    were sent. *)
Definition log_all (evs : list Event) (w : World) : World :=
  {| w_gets := w_gets w; w_draws := w_draws w; w_fs := w_fs w;
     w_trace := w_trace w ++ evs |}.

Definition do_get (url : string) (w : World) : World :=
  {| w_gets := S (w_gets w); w_draws := w_draws w; w_fs := w_fs w;
     w_trace := w_trace w ++ [EvGet url] |}.

Definition write_file (path : string) (f : File) (w : World) : World :=
  {| w_gets := w_gets w; w_draws := w_draws w; w_fs := <[path := f]> (w_fs w);
     w_trace := w_trace w ++ [EvWrite path] |}.

(** [shutil.move(src, dst)] *)
Definition move_file (src dst : string) (w : World) : World :=
  {| w_gets := w_gets w; w_draws := w_draws w;
     w_fs := match w_fs w !! src with
             | Some f => <[dst := f]> (delete src (w_fs w))
             | None => w_fs w
             end;
     w_trace := w_trace w ++ [EvMove src dst] |}.

(** [sha256_file]: [None] when the file cannot be opened. *)
Definition sha256_file (fs : gmap string File) (path : string) : option string :=
  file_digest <$> fs !! path.

Definition no_such_file (path : string) : string :=
  "[Errno 2] No such file or directory: '" +:+ path +:+ "'".

Definition is_primary_url (lib : UrlLib.Checks) (url : string) : bool :=
  match UrlLib.urlparse_netloc lib url with
  | None => false
  | Some netloc => host_matches PRIMARY_WHITELIST (Py.lower netloc)
  end.

(** The host policy in the words of the specification: the host matches a
    whitelist entry by suffix or by substring, letter case ignored. *)
Definition host_on_whitelist (host : string) : Prop :=
  exists entry, entry ∈ PRIMARY_WHITELIST /\
    (Py.is_suffix (Py.lower entry) (Py.lower host) \/
     Py.is_substring (Py.lower entry) (Py.lower host)).

Definition failed_checks : Checks :=
  {| c_has_einstein := false; c_has_venue := false; c_page_sane := false;
     c_valid_primary := false; c_text_len := 0; c_pages := 0; c_host := "" |}.

(** [urlparse(source_url).netloc if source_url else ""], before [.lower()];
    [None] when [urlparse] raises. *)
Definition source_netloc (lib : UrlLib.Checks) (source_url : option string)
    : option string :=
  match source_url with
  | Some u => if Py.truthy u then UrlLib.urlparse_netloc lib u else Some ""
  | None => Some ""
  end.

Definition validate_pdf (lib : UrlLib.Checks) (fs : gmap string File) (path : string)
    (source_url : option string) (accept_scan_only : bool)
    (trusted_hosts : list string) (book : bool) : Checks :=
  match fs !! path ≫= file_pdf with
  | None => failed_checks
  | Some pdf =>
      let pages := pdf_pages pdf in
      let text_low := Py.lower (pdf_text pdf) in
      let text_len := Z.of_nat (String.length text_low) in
      let has_einstein := Py.contains "einstein" text_low in
      let has_venue :=
        existsb (fun v => Py.contains (Py.lower v) text_low) VENUE_KEYWORDS in
      let page_sane :=
        ((1 <=? pages) && (pages <=? 200)) || (book && (50 <? pages)) in
      let valid := has_einstein && page_sane in
      match source_netloc lib source_url with
      | None => failed_checks
      | Some netloc =>
          let host := Py.lower netloc in
          let is_trusted := host_matches trusted_hosts host in
          let valid :=
            if accept_scan_only && is_trusted
            then if (text_len <? 100) && ((2 <=? pages) && (pages <=? 80))
                 then true else valid
            else valid in
          {| c_has_einstein := has_einstein; c_has_venue := has_venue;
             c_page_sane := page_sane; c_valid_primary := valid;
             c_text_len := text_len; c_pages := pages; c_host := host |}
      end
  end.

Section Pipeline.
Variable env : Env.
Variable args : Args.

(** *** Candidate resolution *)

(** The resolver functions return their result together with the
    requests they sent through [client]. *)
Definition resolve_doi (doi : string) : option string * list Event :=
  if negb (Py.truthy doi) then (None, [])
  else
    let url := "https://doi.org/" +:+ doi in
    (match client_get_doi env url with
     | Some r => if doi_status_code r <? 400 then Some (doi_final_url r) else None
     | None => None
     end,
     [EvLookup url]).

(** [pdf = L.get("url_for_pdf") or ""; if pdf and is_primary_url(pdf)] *)
Definition primary_pdf_of (loc : OaLocation) : option string :=
  let pdf := Py.or_empty (url_for_pdf loc) in
  if Py.truthy pdf && is_primary_url (urllib env) pdf then Some pdf else None.

(** The [for L in ...: ... return pdf] scan of [try_unpaywall]. *)
Fixpoint first_primary_pdf (locs : list OaLocation) : option string :=
  match locs with
  | [] => None
  | L :: rest =>
      match primary_pdf_of L with
      | Some pdf => Some pdf
      | None => first_primary_pdf rest
      end
  end.

Definition try_unpaywall (doi : string) : option string * list Event :=
  let email := Py.strip (UNPAYWALL_EMAIL env) in
  if negb (Py.truthy email) || negb (Py.truthy doi) then (None, [])
  else
    let url := "https://api.unpaywall.org/v2/" +:+ doi in
    (match client_get_unpaywall env url email with
     | None => None
     | Some r =>
         if 400 <=? up_status_code r then None
         else match up_json r with
              | None => None
              | Some data =>
                  let loc := default {| url_for_pdf := None |} (best_oa_location data) in
                  match primary_pdf_of loc with
                  | Some pdf => Some pdf
                  | None => first_primary_pdf (default [] (oa_locations data))
                  end
              end
     end,
     [EvLookup url]).

Definition try_ads_pdf (bibcode : string) : option string :=
  let token := Py.strip (ADS_TOKEN env) in
  if negb (Py.truthy token) || negb (Py.truthy bibcode) then None
  else Some ("https://ui.adsabs.harvard.edu/link_gateway/" +:+ bibcode +:+ "/PUB_PDF").

(** [if u: candidates.append(u)] *)
Definition append_if (candidates : list string) (u : option string) : list string :=
  match u with
  | Some u => if Py.truthy u then candidates ++ [u] else candidates
  | None => candidates
  end.

(** The list comprehension [[u for u in candidates if u and is_primary_url(u)]]. *)
Definition keep_primary (candidates : list string) : list string :=
  List.filter (fun u => Py.truthy u && is_primary_url (urllib env) u) candidates.

(** [resolve_candidates] returns [(title, year, candidates)] and the
    requests sent on the way. *)
Definition resolve_candidates (rec : Rec)
    : (string * string * list string) * list Event :=
  let title := Py.strip (rec_title rec) in
  let year := Py.strip (rec_year rec) in
  let doi := Py.strip (rec_doi rec) in
  let bibcode := Py.strip (rec_bibcode rec) in
  let url_hint := Py.strip (rec_url_hint rec) in
  let candidates := [] in
  let with_doi :=
    if Py.truthy doi
    then
      let u := resolve_doi doi in
      let u2 := try_unpaywall doi in
      (append_if (append_if candidates u.1) u2.1, u.2 ++ u2.2)
    else (candidates, []) in
  let candidates := with_doi.1 in
  let lookups := with_doi.2 in
  let candidates :=
    if Py.truthy bibcode then append_if candidates (try_ads_pdf bibcode)
    else candidates in
  let candidates :=
    if Py.truthy url_hint then candidates ++ [url_hint] else candidates in
  let candidates :=
    keep_primary candidates in
  let candidates :=
    match candidates with
    | [] =>
        if Py.truthy bibcode then
          let u := "http://adsabs.harvard.edu/pdf/" +:+ bibcode in
          if is_primary_url (urllib env) u then candidates ++ [u] else candidates
        else candidates
    | _ :: _ => candidates
    end in
  ((title, year, candidates), lookups).

(** *** Effects *)

(** [random.uniform(a, b)], which is [a + (b - a) * random()]. *)
Definition random_uniform (a b : Q) (draw : nat) : Q :=
  (a + (b - a) * fr_value (random_random env draw))%Q.

(** [backoff_sleep(attempt)] *)
Definition backoff_sleep (attempt : Z) (w : World) : World :=
  {| w_gets := w_gets w; w_draws := S (w_draws w); w_fs := w_fs w;
     w_trace := w_trace w ++
       [EvSleep (inject_Z (backoff_base attempt) + random_uniform 0 1 (w_draws w))%Q] |}.

(** An engine run that leaves a file at [out_pdf]; the result is
    [os.path.exists(out_pdf) and os.path.getsize(out_pdf) > 500]. *)
Definition engine_wrote (out_pdf : string) (f : File) (w : World) : bool * World :=
  (500 <? file_size f, write_file out_pdf f w).

Definition html_to_pdf (url out_pdf : string) (w : World) : bool * World :=
  let w := log (EvRender url) w in
  let via_playwright :=
    if HAVE_PLAYWRIGHT env then
      match playwright_print env url with
      | Some f => engine_wrote out_pdf f w
      | None => (false, w)
      end
    else (false, w) in
  if HAVE_PDFKIT env then
    match pdfkit_from_url env url with
    | Some f => engine_wrote out_pdf f w
    | None => via_playwright
    end
  else via_playwright.

Definition browser_fetch_pdf (url out_pdf : string) (w : World) : bool * World :=
  if negb (HAVE_PLAYWRIGHT env) then (false, w)
  else
    let w := log (EvBrowser url) w in
    match playwright_download env url with
    | Some f => engine_wrote out_pdf f w
    | None => (false, w)
    end.

(** *** The per-record fetch loop *)

(** How one candidate's retry loop ends: [return status], or falling out
    of the loop ([break], or [range(args.retries)] exhausted) so that
    the [for url in candidates] loop goes on. *)
Inductive Flow :=
| Return (st : Status)
| NextUrl (st : Status).

Section Candidate.
Variable out_pdf : string.
Variable quarantine_dir : string.
Variable url : string.

Definition validate (final : string) (book : bool) (w : World) : Checks :=
  validate_pdf (urllib env) (w_fs w) out_pdf (Some final)
    (accept_scan_only args) (trusted_hosts args) book.

(** One pass through the body of [for attempt in range(args.retries)];
    [again] is the rest of the loop ([continue]). *)
Definition attempt_body (again : Status -> World -> Flow * World)
    (attempt : Z) (st : Status) (w : World) : Flow * World :=
  let on_exception (msg : string) (st : Status) (w : World) :=
    again (set_note st ("error:" +:+ msg)) (backoff_sleep attempt w) in
  let accept (checks : Checks) (st : Status) (w : World) :=
    match sha256_file (w_fs w) out_pdf with
    | Some h => (Return (update_saved_hashed st out_pdf h checks), w)
    | None => on_exception (no_such_file out_pdf) st w
    end in
  match sess_get env (w_gets w) url with
  | GetRaised msg => on_exception msg st (do_get url w)
  | GetReplied r =>
      let w := do_get url w in
      let ctype := Py.lower (content_type r) in
      let final := final_url r in
      if retryable_status (status_code r) then
        again st (backoff_sleep attempt w)
      else if Py.contains "pdf" ctype || guess_pdf final then
        match body r with
        | BodyRaised msg partial =>
            on_exception msg st (write_file out_pdf partial w)
        | BodyOk f =>
            let w := write_file out_pdf f w in
            let checks := validate final false w in
            if c_valid_primary checks then accept checks st w
            else
              let qpath := path_join quarantine_dir (basename out_pdf) in
              let w := move_file out_pdf qpath w in
              (Return (update_saved_noted st qpath checks
                         "quarantined_failed_validation"), w)
        end
      else if Py.contains "html" ctype || Py.contains "text/" ctype
              || String.eqb ctype "" then
        let gutenberg (st : Status) (w : World) :=
          let no_pdf (w : World) :=
            (NextUrl (set_note st "html_no_primary_pdf"), w) in
          if Py.contains "gutenberg.org" final then
            let '(ok, w) := html_to_pdf final out_pdf w in
            if ok then accept (validate final true w) st w
            else no_pdf w
          else no_pdf w in
        if use_browser args && HAVE_PLAYWRIGHT env then
          let '(ok, w) := browser_fetch_pdf final out_pdf w in
          if ok then
            let checks := validate final false w in
            if c_valid_primary checks then accept checks st w
            else gutenberg st w
          else gutenberg st w
        else gutenberg st w
      else
        (NextUrl (set_note st ("unsupported_ctype:" +:+ ctype)), w)
  end.

(** [for attempt in range(args.retries)], from [attempt] on with [n]
    passes left. *)
Fixpoint retry_loop (n : nat) (attempt : Z) (st : Status) (w : World)
    : Flow * World :=
  match n with
  | O => (NextUrl st, w)
  | S n' => attempt_body (retry_loop n' (attempt + 1)) attempt st w
  end.
End Candidate.


Definition is_licensed (url : string) : bool :=
  Py.contains "jstor.org" url || Py.contains "springer" url.

(** [for url in candidates] *)
Fixpoint candidates_loop (out_pdf quarantine_dir : string)
    (candidates : list string) (st : Status) (w : World) : Status * World :=
  match candidates with
  | [] => (st, w)
  | url :: rest =>
      if is_licensed url && negb (allow_licensed args) then
        candidates_loop out_pdf quarantine_dir rest st w
      else
        let st := set_chosen_url st url in
        match retry_loop out_pdf quarantine_dir url
                (Z.to_nat (retries args)) 0 st w with
        | (Return st', w') => (st', w')
        | (NextUrl st', w') => candidates_loop out_pdf quarantine_dir rest st' w'
        end
  end.

Definition initial_status (title year : string) : Status :=
  {| title := title; year := year; chosen_url := None; saved_as := None;
     sha256 := None; validated := false; has_einstein := false;
     has_venue := false; page_sane := false; note := ""; text_len := 0;
     pages := 0; host := ""; valid_primary := None |}.

Definition is_underscore (c : ascii) : bool := Ascii.eqb c "_".

(** [base] and [out_pdf] of [fetch_one]. *)
Definition out_pdf_of (title year : string) : string :=
  let stem :=
    Py.strip_by is_underscore
      ((if Py.truthy year then year +:+ "_" else "") +:+ safe_slug title) in
  let base := if Py.truthy stem then stem else "einstein_pub" in
  path_join (out args) (base +:+ ".pdf").

Definition quarantine_dir_of : string := path_join (out args) "quarantine".

(** The fetch loop on an already resolved candidate list. *)
Definition fetch_candidates (title year : string) (candidates : list string)
    (w : World) : Status * World :=
  let status := initial_status title year in
  match candidates with
  | [] => (set_note status "no_primary_candidate", w)
  | _ :: _ =>
      candidates_loop (out_pdf_of title year) quarantine_dir_of candidates status w
  end.

Definition fetch_one (rec : Rec) (w : World) : Status * World :=
  let '((title, year, candidates), lookups) := resolve_candidates rec in
  fetch_candidates title year candidates (log_all lookups w).

End Pipeline.

(** *** Reading a run's effects *)

Definition is_move (e : Event) : bool :=
  match e with
  | EvMove _ _ => true
  | _ => false
  end.

(** [w'] continues [w] without a quarantine move. *)
Definition extends_quietly (w w' : World) : Prop :=
  exists evs, w_trace w' = w_trace w ++ evs /\ existsb is_move evs = false.

(** From [w] to [w'] either nothing was quarantined, or exactly one file
    was, as the very last effect, and [st'] is the entry for it. *)
Definition quarantine_is_final (w : World) (st' : Status) (w' : World) : Prop :=
  exists evs, w_trace w' = w_trace w ++ evs /\
    (existsb is_move evs = false
     \/ exists pre src dst,
          evs = pre ++ [EvMove src dst]
          /\ existsb is_move pre = false
          /\ note st' = "quarantined_failed_validation"
          /\ saved_as st' = Some dst).

Definition flow_respects_quarantine (w : World) (res : Flow * World) : Prop :=
  match res.1 with
  | Return st' => quarantine_is_final w st' res.2
  | NextUrl _ => extends_quietly w res.2
  end.

(** A digest is on the entry only together with an accepted validation. *)
Definition hashed_only_if_valid (st : Status) : Prop :=
  sha256 st = None \/ valid_primary st = Some true.

Definition flow_hashes_valid_only (res : Flow * World) : Prop :=
  match res.1 with
  | Return st' => hashed_only_if_valid st'
  | NextUrl st' => sha256 st' = None
  end.

End Preserver.

(** ** [einstein_missing_from_ads.py] *)
Module Discovery.

(** A candidate row (a [dict]); [bibcode] and [doi] may be missing or
    [None]. *)
Record Row := {
  title : string;
  year : string;
  bibcode : option string;
  doi : option string;
  url_hint : string
}.

#[global] Instance Row_eq_dec : EqDecision Row.
Proof. solve_decision. Defined.

(** [b = (r.get("bibcode") or "").strip()] *)
Definition bib_key (r : Row) : string := Py.strip (Py.or_empty (bibcode r)).

(** [d = (r.get("doi") or "").strip().lower()] *)
Definition doi_key (r : Row) : string := Py.lower (Py.strip (Py.or_empty (doi r))).

(** The local state of [dedupe_rows]. *)
Record Seen := {
  seen_bib : gset string;
  seen_doi : gset string;
  out : list Row
}.

Definition add_if_truthy (k : string) (s : gset string) : gset string :=
  if Py.truthy k then s ∪ {[ k ]} else s.

(** One iteration of [for r in rows]. *)
Definition dedupe_step (s : Seen) (r : Row) : Seen :=
  let b := bib_key r in
  let d := doi_key r in
  if Py.truthy b && bool_decide (b ∈ seen_bib s) then s
  else if Py.truthy d && bool_decide (d ∈ seen_doi s) then s
  else {| seen_bib := add_if_truthy b (seen_bib s);
          seen_doi := add_if_truthy d (seen_doi s);
          out := out s ++ [r] |}.

Definition dedupe_from (s : Seen) (rows : list Row) : Seen :=
  fold_left dedupe_step rows s.

Definition dedupe_rows (rows : list Row) : list Row :=
  out (dedupe_from {| seen_bib := ∅; seen_doi := ∅; out := [] |} rows).

(** The rule in words: a row clashes with the rows kept so far when one of
    them has the same non-empty bibcode or the same non-empty DOI. *)
Definition shares_key (r k : Row) : bool :=
  (Py.truthy (bib_key r) && bool_decide (bib_key k = bib_key r))
  || (Py.truthy (doi_key r) && bool_decide (doi_key k = doi_key r)).

Definition clashes (kept : list Row) (r : Row) : bool := existsb (shares_key r) kept.

(** The non-empty keys of a list of rows, in order. *)
Definition nonempty_keys (key : Row -> string) (rows : list Row) : list string :=
  List.filter Py.truthy (key <$> rows).

Definition keyless (r : Row) : bool :=
  negb (Py.truthy (bib_key r)) && negb (Py.truthy (doi_key r)).

(** The two sets hold exactly the non-empty keys of the rows kept so far. *)
Definition seen_matches_kept (s : Seen) : Prop :=
  (forall b, b ∈ seen_bib s <->
     Py.truthy b = true /\ exists k, k ∈ out s /\ bib_key k = b)
  /\ (forall d, d ∈ seen_doi s <->
        Py.truthy d = true /\ exists k, k ∈ out s /\ doi_key k = d).

End Discovery.

(** ** Concrete inputs used by the examples, witnesses and counterexamples *)
Module Scenario.
Import Preserver.

(** Jitter draws: none, and half a second. *)
Definition no_jitter : Fraction := {| fr_value := 0; fr_range := eq_refl |}.
Definition half_second : Fraction := {| fr_value := 1 # 2; fr_range := eq_refl |}.

(** Library checks that never raise. *)
Definition lib_ok : UrlLib.Checks :=
  {| UrlLib.check_bracketed_netloc := fun _ => true;
     UrlLib.checknetloc := fun _ => true |}.

(** A thirteen-page article whose first pages name the author and the
    journal, the same without the journal, and a forty-five-page scan
    without any text layer. *)
Definition annalen_article : File :=
  {| file_pdf := Some {| pdf_pages := 13;
                         pdf_text := "Zur Elektrodynamik bewegter Koerper; von A. Einstein. Annalen der Physik 17" |};
     file_size := 812345;
     file_digest := "5f2b0c" |}.

Definition plain_article : File :=
  {| file_pdf := Some {| pdf_pages := 13;
                         pdf_text := "Zur Elektrodynamik bewegter Koerper; von A. EINSTEIN." |};
     file_size := 802345;
     file_digest := "77aa01" |}.


Definition disk_article : gmap string File := {[ "paper.pdf" := annalen_article ]}.
Definition disk_plain : gmap string File := {[ "paper.pdf" := plain_article ]}.

(** Surroundings in which nothing answers: no engines, no credentials,
    every request raises. *)
Definition offline : Env :=
  {| urllib := lib_ok;
     HAVE_PDFKIT := false;
     HAVE_PLAYWRIGHT := false;
     UNPAYWALL_EMAIL := "";
     ADS_TOKEN := "";
     client_get_doi := fun _ => None;
     client_get_unpaywall := fun _ _ => None;
     sess_get := fun _ _ => GetRaised "connection refused";
     random_random := fun _ => no_jitter;
     pdfkit_from_url := fun _ => None;
     playwright_print := fun _ => None;
     playwright_download := fun _ => None |}.

Definition default_args : Args :=
  {| out := "einstein_primary"; retries := 3; allow_licensed := false;
     use_browser := false; insecure := false; accept_scan_only := false;
     trust_host := [] |}.

Definition empty_world : World :=
  {| w_gets := 0; w_draws := 0; w_fs := ∅; w_trace := [] |}.

(** The open-access lookup lists the same paper at two whitelisted hosts. *)
Definition oa_best : OaLocation :=
  {| url_for_pdf := Some "https://archive.org/download/annalen/annalen.pdf" |}.

Definition oa_second : OaLocation :=
  {| url_for_pdf := Some "https://gallica.bnf.fr/ark:/12148/annalen.pdf" |}.

Definition oa_reply : UnpaywallReply :=
  {| up_status_code := 200;
     up_json := Some {| best_oa_location := Some oa_best;
                        oa_locations := Some [oa_best; oa_second] |} |}.

Definition with_oa_lookup : Env :=
  {| urllib := lib_ok;
     HAVE_PDFKIT := false;
     HAVE_PLAYWRIGHT := false;
     UNPAYWALL_EMAIL := "archive@example.org";
     ADS_TOKEN := "";
     client_get_doi := fun _ =>
       Some {| doi_status_code := 200;
               doi_final_url := "https://onlinelibrary.wiley.com/doi/10.1002/andp.19053221004" |};
     client_get_unpaywall := fun _ _ => Some oa_reply;
     sess_get := fun _ _ => GetRaised "connection refused";
     random_random := fun _ => no_jitter;
     pdfkit_from_url := fun _ => None;
     playwright_print := fun _ => None;
     playwright_download := fun _ => None |}.

Definition electrodynamics_doi : Rec :=
  {| rec_title := "Zur Elektrodynamik bewegter Koerper";
     rec_year := "1905";
     rec_doi := "10.1002/andp.19053221004";
     rec_bibcode := "";
     rec_url_hint := "" |}.

(** A server that answers every GET with the given reply. *)
Definition answering (reply : string -> GetOutcome) : Env :=
  {| urllib := lib_ok;
     HAVE_PDFKIT := false;
     HAVE_PLAYWRIGHT := false;
     UNPAYWALL_EMAIL := "";
     ADS_TOKEN := "";
     client_get_doi := fun _ => None;
     client_get_unpaywall := fun _ _ => None;
     sess_get := fun _ url => reply url;
     random_random := fun _ => half_second;
     pdfkit_from_url := fun _ => None;
     playwright_print := fun _ => None;
     playwright_download := fun _ => None |}.

Definition pdf_reply (url : string) (f : File) : GetOutcome :=
  GetReplied {| status_code := 200; content_type := "application/pdf";
                final_url := url; body := BodyOk f |}.


(** A landing page saved as a one-page PDF that does not name the subject. *)
Definition landing_page : File :=
  {| file_pdf := Some {| pdf_pages := 1; pdf_text := "Sign in to continue reading" |};
     file_size := 20480;
     file_digest := "0badf00d" |}.

Definition archive_url : string := "https://archive.org/download/annalen/annalen.pdf".

(** The index link delivers a landing page saved as PDF, the hinted
    archive copy delivers the article. *)
Definition gateway_url : string :=
  "https://ui.adsabs.harvard.edu/link_gateway/1905AnP...322..891E/PUB_PDF".

Definition landing_then_article : Env :=
  {| urllib := lib_ok;
     HAVE_PDFKIT := false;
     HAVE_PLAYWRIGHT := false;
     UNPAYWALL_EMAIL := "";
     ADS_TOKEN := "s3cr3t";
     client_get_doi := fun _ => None;
     client_get_unpaywall := fun _ _ => None;
     sess_get := fun _ url =>
       if String.eqb url gateway_url then pdf_reply url landing_page
       else pdf_reply url annalen_article;
     random_random := fun _ => no_jitter;
     pdfkit_from_url := fun _ => None;
     playwright_print := fun _ => None;
     playwright_download := fun _ => None |}.

Definition electrodynamics_ads : Rec :=
  {| rec_title := "Zur Elektrodynamik bewegter Koerper";
     rec_year := "1905";
     rec_doi := "";
     rec_bibcode := "1905AnP...322..891E";
     rec_url_hint := archive_url |}.


(** A book page at Project Gutenberg, rendered by the print-to-PDF engine
    into a PDF that does not name the subject. *)
Definition gutenberg_url : string := "https://www.gutenberg.org/ebooks/5001".

Definition rendered_page : File :=
  {| file_pdf := Some {| pdf_pages := 3; pdf_text := "Project Gutenberg: free ebooks" |};
     file_size := 40960;
     file_digest := "9e107d9d" |}.

Definition gutenberg_render : Env :=
  {| urllib := lib_ok;
     HAVE_PDFKIT := true;
     HAVE_PLAYWRIGHT := false;
     UNPAYWALL_EMAIL := "";
     ADS_TOKEN := "";
     client_get_doi := fun _ => None;
     client_get_unpaywall := fun _ _ => None;
     sess_get := fun _ url =>
       GetReplied {| status_code := 200; content_type := "text/html; charset=utf-8";
                     final_url := url; body := BodyOk rendered_page |};
     random_random := fun _ => no_jitter;
     pdfkit_from_url := fun _ => Some rendered_page;
     playwright_print := fun _ => None;
     playwright_download := fun _ => None |}.

Definition hinted (url : string) : Rec :=
  {| rec_title := "Zur Elektrodynamik bewegter Koerper";
     rec_year := "1905";
     rec_doi := "";
     rec_bibcode := "";
     rec_url_hint := url |}.

(** The publisher's page is HTML, and the browser saves it as a PDF which
    does not name the subject; the hinted archive copy delivers the
    article. *)
Definition html_reply (url : string) : GetOutcome :=
  GetReplied {| status_code := 200; content_type := "text/html";
                final_url := url; body := BodyOk landing_page |}.

Definition wiley_url : string :=
  "https://onlinelibrary.wiley.com/doi/10.1002/andp.19053221004".

Definition electrodynamics_doi_hinted : Rec :=
  {| rec_title := "Zur Elektrodynamik bewegter Koerper";
     rec_year := "1905";
     rec_doi := "10.1002/andp.19053221004";
     rec_bibcode := "";
     rec_url_hint := archive_url |}.

Definition browser_then_article : Env :=
  {| urllib := lib_ok;
     HAVE_PDFKIT := false;
     HAVE_PLAYWRIGHT := true;
     UNPAYWALL_EMAIL := "";
     ADS_TOKEN := "";
     client_get_doi := fun _ =>
       Some {| doi_status_code := 200; doi_final_url := wiley_url |};
     client_get_unpaywall := fun _ _ => None;
     sess_get := fun _ url =>
       if String.eqb url wiley_url then html_reply url
       else pdf_reply url annalen_article;
     random_random := fun _ => no_jitter;
     pdfkit_from_url := fun _ => None;
     playwright_print := fun _ => None;
     playwright_download := fun _ => Some landing_page |}.

Definition browser_args : Args :=
  {| out := "einstein_primary"; retries := 3; allow_licensed := false;
     use_browser := true; insecure := false; accept_scan_only := false;
     trust_host := [] |}.

(** A row of a CSV file with the five columns whose [doi], [bibcode] and
    [url_hint] cells are empty, and the same item as a JSONL line without
    those keys. *)
Definition csv_row_title_only : Item :=
  {| item_title := Value "Zur Elektrodynamik bewegter Koerper";
     item_year := Value "1905";
     item_doi := EmptyCell;
     item_bibcode := EmptyCell;
     item_url_hint := EmptyCell |}.

Definition jsonl_line_title_only : Item :=
  {| item_title := Value "Zur Elektrodynamik bewegter Koerper";
     item_year := Value "1905";
     item_doi := NoKey;
     item_bibcode := NoKey;
     item_url_hint := NoKey |}.

(** Every GET is answered with status 404 and an HTML error page. *)
Definition error_page : File :=
  {| file_pdf := None; file_size := 1245; file_digest := "d41d8c" |}.

Definition not_found : Env :=
  answering (fun url =>
    GetReplied {| status_code := 404; content_type := "text/html; charset=utf-8";
                  final_url := url; body := BodyOk error_page |}).

Definition no_identifiers : Rec :=
  {| rec_title := "Zur Elektrodynamik bewegter Koerper";
     rec_year := "1905";
     rec_doi := "";
     rec_bibcode := "";
     rec_url_hint := "" |}.

(** Three search hits: the second repeats the DOI of the first (in another
    letter case, with blanks around it); the third repeats the bibcode of
    the second. *)
Definition hit1 : Discovery.Row :=
  {| Discovery.title := "Zur Elektrodynamik bewegter Koerper"; Discovery.year := "1905";
     Discovery.bibcode := Some "1905AnP...322..891E";
     Discovery.doi := Some "10.1002/andp.19053221004";
     Discovery.url_hint := "" |}.

Definition hit2 : Discovery.Row :=
  {| Discovery.title := "On the Electrodynamics of Moving Bodies"; Discovery.year := "1905";
     Discovery.bibcode := Some "1905AnP....17..891E";
     Discovery.doi := Some " 10.1002/ANDP.19053221004 ";
     Discovery.url_hint := "" |}.

Definition hit3 : Discovery.Row :=
  {| Discovery.title := "Zur Elektrodynamik bewegter Koerper (reprint)"; Discovery.year := "1905";
     Discovery.bibcode := Some "1905AnP....17..891E";
     Discovery.doi := None;
     Discovery.url_hint := "" |}.

Definition hit_keyless : Discovery.Row :=
  {| Discovery.title := "Untitled"; Discovery.year := "";
     Discovery.bibcode := None; Discovery.doi := Some "  ";
     Discovery.url_hint := "" |}.

End Scenario.

(** ** Reading the effects of a run *)
Module Effects.
Import Preserver.

(** The URLs of the GET requests of the fetch loop among some events, in
    order, and those of the requests of the resolver. *)
Definition get_urls (evs : list Event) : list string :=
  omap (fun e => match e with EvGet u => Some u | _ => None end) evs.

Definition lookup_urls (evs : list Event) : list string :=
  omap (fun e => match e with EvLookup u => Some u | _ => None end) evs.




(** [w'] continues [w] with at most [k] GETs, all to [allowed] URLs, and
    without a request of the resolver. *)
Definition gets_bounded (allowed : list string) (k : nat) (w w' : World) : Prop :=
  exists evs, w_trace w' = w_trace w ++ evs
              /\ Forall (fun u => u ∈ allowed) (get_urls evs)
              /\ (length (get_urls evs) <= k)%nat
              /\ lookup_urls evs = [].


(** The entry's digest is the digest of the file at its [saved_as] path. *)
Definition digest_on_disk (out_pdf : string) (st : Status) (w : World) : Prop :=
  forall h, sha256 st = Some h ->
    saved_as st = Some out_pdf
    /\ exists f, w_fs w !! out_pdf = Some f /\ file_digest f = h.

(** The entry of a quarantined file points at the quarantine copy. *)
Definition quarantine_on_disk (out_pdf qpath : string) (st : Status) (w : World) : Prop :=
  note st = "quarantined_failed_validation" ->
    saved_as st = Some qpath
    /\ sha256 st = None
    /\ valid_primary st = Some false
    /\ is_Some (w_fs w !! qpath)
    /\ (qpath <> out_pdf -> w_fs w !! out_pdf = None).

(** An entry still in the making: no digest yet, and not a quarantine
    entry. *)
Definition in_progress (st : Status) : Prop :=
  sha256 st = None /\ note st <> "quarantined_failed_validation".

Definition flow_digest_on_disk (out_pdf : string) (res : Flow * World) : Prop :=
  match res.1 with
  | Return st' => digest_on_disk out_pdf st' res.2
  | NextUrl st' => sha256 st' = None
  end.

Definition flow_quarantine_on_disk (out_pdf qpath : string) (res : Flow * World) : Prop :=
  match res.1 with
  | Return st' => quarantine_on_disk out_pdf qpath st' res.2
  | NextUrl st' => in_progress st'
  end.

(** The characters a slug is made of: letters, digits, underscore, hyphen,
    dot, and characters above the ASCII range. *)
Definition slug_char (c : ascii) : bool :=
  slug_keep c && negb (Py.is_space c).

End Effects.

(** ** [einstein_missing_from_ads.py], query results and master comparison *)
Module Catalog.
Import Discovery.

(** A JSON value under a key of an ADS document: absent, [null], a list
    of strings (an element may be [null]), or a scalar, given by its
    [str()]. *)
Inductive JsonField :=
| Missing
| Null
| Items (l : list (option string))
| Text (s : string).

(** One document of [response.docs]; [year] and [bibcode] are scalars,
    [None] when absent or [null]. *)
Record Doc := {
  d_title : JsonField;
  d_year : option string;
  d_bibcode : option string;
  d_doi : JsonField
}.

(** [x or "Untitled"] *)
Definition or_untitled (s : string) : string :=
  if Py.truthy s then s else "Untitled".

Definition first_title (d : Doc) : string :=
  match d_title d with
  | Missing => or_untitled ""
  | Items l =>
      or_untitled (match l with
                   | x :: _ => Py.or_empty x
                   | [] => ""
                   end)
  | Null => "Untitled"
  | Text s => or_untitled s
  end.

Definition gateway_link (bc : string) : string :=
  "https://ui.adsabs.harvard.edu/link_gateway/" +:+ bc +:+ "/PUB_PDF".

(** The [row] built for one document in [to_rows]. *)
Definition row_of (d : Doc) : Row :=
  let bc := Py.or_empty (d_bibcode d) in
  {| title := first_title d;
     year := Py.or_empty (d_year d);
     bibcode := Some bc;
     doi := match d_doi d with
            | Items l => match l with
                         | x :: _ => x
                         | [] => None
                         end
            | Missing | Null => Some ""
            | Text s => Some s
            end;
     url_hint := if Py.truthy bc then gateway_link bc else "" |}.

(** [to_rows], on [(data.get("response") or {}).get("docs")]. *)
Definition to_rows (docs : option (list Doc)) : list Row :=
  row_of <$> default [] docs.

(** Titles and years are free text.  In [norm_title] and [year_int] a
    character stands for the code point of the same number, U+0000 to
    U+00FF, and [str.lower], [\w], [\s], [str.strip] and [int] follow
    Python's tables for these code points. *)

(** [str.lower] on one character: A to Z, and the capital letters from
    U+00C0 to U+00DE (U+00D7 is the multiplication sign). *)
Definition unicode_lower_char (c : ascii) : ascii :=
  let n := N_of_ascii c in
  if (((65 <=? n) && (n <=? 90))
      || (((192 <=? n) && (n <=? 222)) && negb (n =? 215)))%N
  then ascii_of_N (n + 32) else c.

(** [\s], which is also what [str.strip()] removes: TAB to CR, FS to US,
    the blank, NEL (U+0085) and the no-break space (U+00A0). *)
Definition unicode_space (c : ascii) : bool :=
  let n := N_of_ascii c in
  (((9 <=? n) && (n <=? 13)) || ((28 <=? n) && (n <=? 32))
   || (n =? 133) || (n =? 160))%N.

(** [\w]: the underscore and what [str.isalnum] accepts, that is digits,
    letters, the ordinal indicators, the micro sign, the superscript
    digits and the three fractions. *)
Definition is_word (c : ascii) : bool :=
  let n := N_of_ascii c in
  (((48 <=? n) && (n <=? 57)) || ((65 <=? n) && (n <=? 90)) || (n =? 95)
   || ((97 <=? n) && (n <=? 122)) || (n =? 170) || ((178 <=? n) && (n <=? 179))
   || (n =? 181) || ((185 <=? n) && (n <=? 186)) || ((188 <=? n) && (n <=? 190))
   || ((192 <=? n) && (n <=? 214)) || ((216 <=? n) && (n <=? 246))
   || (248 <=? n))%N.

(** [re.sub(r"[^\w\s]", " ", s)] on one character. *)
Definition punct_to_space (c : ascii) : ascii :=
  if is_word c || unicode_space c then c else " "%char.

Fixpoint map_chars (f : ascii -> ascii) (s : string) : string :=
  match s with
  | EmptyString => EmptyString
  | String c s' => String (f c) (map_chars f s')
  end.

(** [re.sub(r"\s+", " ", s)] *)
Fixpoint collapse_spaces (in_run : bool) (s : string) : string :=
  match s with
  | EmptyString => EmptyString
  | String c s' =>
      if unicode_space c
      then if in_run then collapse_spaces true s'
           else String " " (collapse_spaces true s')
      else String c (collapse_spaces false s')
  end.

Definition norm_title (x : option string) : string :=
  let s := Py.or_empty x in
  let s := map_chars unicode_lower_char s in
  let s := map_chars punct_to_space s in
  Py.strip_by unicode_space (collapse_spaces false s).

(** [int(s)] for a string: white space around (TAB to CR, the blank, NEL
    and the no-break space), an optional sign, decimal digits with single
    underscores between them; [None] is [ValueError]. *)
Definition digit_value (c : ascii) : Z := Z.of_N (N_of_ascii c) - 48.

Fixpoint parse_digits (acc : Z) (after_digit : bool) (s : string) : option Z :=
  match s with
  | EmptyString => if after_digit then Some acc else None
  | String c s' =>
      if Py.is_digit c then parse_digits (10 * acc + digit_value c) true s'
      else if Ascii.eqb c "_" && after_digit then parse_digits acc false s'
      else None
  end.

Definition int_space (c : ascii) : bool :=
  let n := N_of_ascii c in
  (((9 <=? n) && (n <=? 13)) || (n =? 32) || (n =? 133) || (n =? 160))%N.

Definition py_int (s : string) : option Z :=
  match Py.strip_by int_space s with
  | EmptyString => parse_digits 0 false EmptyString
  | String c digits =>
      if Ascii.eqb c "+" then parse_digits 0 false digits
      else if Ascii.eqb c "-" then Z.opp <$> parse_digits 0 false digits
      else parse_digits 0 false (String c digits)
  end.

(** [year_int], on [str(y)]. *)
Definition year_int (y : string) : option Z :=
  py_int (Preserver.take_chars 4 y).

(** A row of the master frame as [load_master] leaves it: every column a
    string. *)
Record MasterRow := {
  m_title : string;
  m_year : string;
  m_bibcode : string;
  m_doi : string
}.

Definition have_bib (master : list MasterRow) : gset string :=
  list_to_set (List.filter Py.truthy (m_bibcode <$> master)).

Definition have_doi (master : list MasterRow) : gset string :=
  list_to_set (Py.lower <$> List.filter Py.truthy (m_doi <$> master)).

(** The three buckets one master row adds: its normalised title with the
    year before, the year and the year after ([None] when the year does
    not parse). *)
Definition buckets_of (m : MasterRow) : list (string * option Z) :=
  let t := norm_title (Some (m_title m)) in
  let y := year_int (m_year m) in
  (fun dy => (t, (fun y => y + dy) <$> y)) <$> [-1; 0; 1].

Definition base_buckets (master : list MasterRow) : gset (string * option Z) :=
  fold_left (fun s m => s ∪ list_to_set (buckets_of m)) master ∅.

(** One iteration of [for r in cands]. *)
Definition missing_step (hb hd : gset string) (bk : gset (string * option Z))
    (miss : list Row) (r : Row) : list Row :=
  let b := bib_key r in
  let d := doi_key r in
  let t := norm_title (Some (title r)) in
  let y := year_int (year r) in
  if Py.truthy b && bool_decide (b ∈ hb) then miss
  else if Py.truthy d && bool_decide (d ∈ hd) then miss
  else if bool_decide ((t, y) ∈ bk) then miss
  else miss ++ [r].

Definition missing_vs_master (cands : list Row) (master : list MasterRow) : list Row :=
  fold_left (missing_step (have_bib master) (have_doi master) (base_buckets master))
    cands [].

(** The rule of [missing_vs_master] in words: the master has the row's
    bibcode, or its DOI, or a row of the same normalised title whose year
    is at most one away (or, like the row's, does not parse). *)
Definition year_near (ym y : option Z) : Prop :=
  match ym, y with
  | Some a, Some b => b = a - 1 \/ b = a \/ b = a + 1
  | None, None => True
  | _, _ => False
  end.

Definition in_master (master : list MasterRow) (r : Row) : Prop :=
  (bib_key r <> "" /\ exists m, m ∈ master /\ m_bibcode m = bib_key r)
  \/ (doi_key r <> "" /\ exists m, m ∈ master /\ m_doi m <> "" /\ Py.lower (m_doi m) = doi_key r)
  \/ (exists m, m ∈ master
        /\ norm_title (Some (m_title m)) = norm_title (Some (title r))
        /\ year_near (year_int (m_year m)) (year_int (year r))).

(** [get_token]: [None] is [SystemExit]; the second argument is
    [os.environ.get("ADS_TOKEN", "")]. *)
Definition get_token (cmd_token : option string) (environ_token : string) : option string :=
  if Py.truthy (Py.or_empty cmd_token) then Some (Py.strip (Py.or_empty cmd_token))
  else
    let tok := Py.strip environ_token in
    if Py.truthy tok then Some tok else None.

(** Whether [missing_vs_master] passes over a row, given the two sets and
    the buckets. *)
Definition in_master_sets (hb hd : gset string) (bk : gset (string * option Z))
    (r : Row) : bool :=
  (Py.truthy (bib_key r) && bool_decide (bib_key r ∈ hb))
  || (Py.truthy (doi_key r) && bool_decide (doi_key r ∈ hd))
  || bool_decide ((norm_title (Some (title r)), year_int (year r)) ∈ bk).

(** A normalised title: word characters that [str.lower] leaves alone,
    and blanks, every blank between two words. *)
Definition lowered_word (c : ascii) : bool :=
  is_word c && Ascii.eqb (unicode_lower_char c) c && negb (unicode_space c).

Definition title_char (c : ascii) : bool := lowered_word c || Ascii.eqb c " ".

(** A character after lowering and the first substitution: a lowered
    word character or white space. *)
Definition loose_char (c : ascii) : bool := lowered_word c || unicode_space c.

Fixpoint isolated_blanks (after_space : bool) (s : string) : bool :=
  match s with
  | EmptyString => true
  | String c s' =>
      if unicode_space c
      then Ascii.eqb c " " && negb after_space && isolated_blanks true s'
      else isolated_blanks false s'
  end.

Definition normal_title (s : string) : bool :=
  Py.all_chars title_char s && isolated_blanks false s
  && String.eqb (Py.strip_by unicode_space s) s.

End Catalog.

(** ** More concrete inputs *)
Module Sample.
Import Discovery Catalog.

Definition annalen_doc : Doc :=
  {| d_title := Items [Some "Zur Elektrodynamik bewegter Koerper"];
     d_year := Some "1905";
     d_bibcode := Some "1905AnP...322..891E";
     d_doi := Items [Some "10.1002/andp.19053221004"] |}.

Definition bare_doc : Doc :=
  {| d_title := Items []; d_year := None; d_bibcode := None; d_doi := Items [] |}.

Definition master_1905 : MasterRow :=
  {| m_title := "Zur Elektrodynamik bewegter Körper.";
     m_year := "1905.0";
     m_bibcode := "";
     m_doi := "" |}.


End Sample.

(** * Properties *)

(** ** Strings *)
Section StringFacts.

Lemma app_cons (c : ascii) (s t : string) : String c s +:+ t = String c (s +:+ t).
Proof. reflexivity. Qed.

Lemma app_empty_l (s : string) : "" +:+ s = s.
Proof. reflexivity. Qed.

Lemma app_empty_r (s : string) : s +:+ "" = s.
Proof. induction s as [|c s IH]; [reflexivity|]. by rewrite app_cons, IH. Qed.

Lemma app_assoc_str (s t u : string) : (s +:+ t) +:+ u = s +:+ t +:+ u.
Proof. induction s as [|c s IH]; [reflexivity|]. by rewrite !app_cons, IH. Qed.

Lemma app_eq_empty (s t : string) : s +:+ t = "" -> s = "" /\ t = "".
Proof.
  destruct s as [|c s]; [|rewrite app_cons; discriminate].
  intros H. change (t = "") in H. by subst.
Qed.

Lemma startswith_iff (s p : string) :
  Py.startswith s p = true <-> Py.is_prefix p s.
Proof.
  unfold Py.is_prefix. revert s.
  induction p as [|c p IH]; intros s; simpl.
  - split; [intros _; by exists s | done].
  - destruct s as [|d s].
    + split; [done | intros [q Hq]; rewrite app_cons in Hq; discriminate].
    + destruct (Ascii.eqb_spec c d) as [->|Hne].
      * rewrite IH. split; intros [q Hq]; exists q.
        -- by rewrite app_cons, <- Hq.
        -- rewrite app_cons in Hq. by injection Hq.
      * split; [done|]. intros [q Hq]. rewrite app_cons in Hq.
        injection Hq as Hd _. congruence.
Qed.

Lemma contains_iff (h s : string) :
  Py.contains h s = true <-> Py.is_substring h s.
Proof.
  unfold Py.is_substring.
  induction s as [|c s IH]; simpl.
  - rewrite orb_false_r, startswith_iff. split.
    + intros [q Hq]. by exists "", q.
    + intros (p & q & Hpq). symmetry in Hpq.
      apply app_eq_empty in Hpq as [-> Hhq]. by exists q.
  - rewrite orb_true_iff, startswith_iff, IH. split.
    + intros [[q Hq] | (p & q & Hpq)].
      * by exists "", q.
      * exists (String c p), q. by rewrite app_cons, Hpq.
    + intros (p & q & Hpq). destruct p as [|c' p].
      * left. by exists q.
      * right. rewrite app_cons in Hpq. injection Hpq as _ Hs. by exists p, q.
Qed.

Lemma endswith_empty (h : string) : Py.endswith "" h = String.eqb "" h || false.
Proof. reflexivity. Qed.

Lemma endswith_cons (c : ascii) (s h : string) :
  Py.endswith (String c s) h = String.eqb (String c s) h || Py.endswith s h.
Proof. reflexivity. Qed.

Lemma endswith_iff (s h : string) :
  Py.endswith s h = true <-> Py.is_suffix h s.
Proof.
  unfold Py.is_suffix.
  induction s as [|c s IH].
  - rewrite endswith_empty, orb_false_r, String.eqb_eq. split.
    + intros <-. by exists "".
    + intros [p Hp]. symmetry in Hp. by apply app_eq_empty in Hp as [_ ->].
  - rewrite endswith_cons, orb_true_iff, String.eqb_eq, IH. split.
    + intros [<- | [p Hp]]; [by exists ""|].
      exists (String c p). by rewrite app_cons, Hp.
    + intros [p Hp]. destruct p as [|c' p]; [by left|].
      right. rewrite app_cons in Hp. injection Hp as _ Hs. by exists p.
Qed.

Lemma suffix_is_substring (h s : string) : Py.is_suffix h s -> Py.is_substring h s.
Proof. intros [p ->]. exists p, "". by rewrite app_empty_r. Qed.




Lemma lower_char_idem (c : ascii) : Py.lower_char (Py.lower_char c) = Py.lower_char c.
Proof. by destruct c as [[] [] [] [] [] [] [] []]. Qed.

Lemma lower_idem (s : string) : Py.lower (Py.lower s) = Py.lower s.
Proof. induction s as [|c s IH]; simpl; [done|]. by rewrite lower_char_idem, IH. Qed.


End StringFacts.

(** ** The URL parser on ordinary web addresses *)
Section UrlShape.
Import UrlLib.

Lemma host_char_facts (c : ascii) :
  host_char c = true ->
  unsafe_byte c = false /\ netloc_delim c = false /\ is_ascii c = true
  /\ Ascii.eqb "[" c = false /\ Ascii.eqb "]" c = false.
Proof. destruct c as [[] [] [] [] [] [] [] []]; cbn; intros H; try discriminate H; done. Qed.

Lemma remove_unsafe_host (host rest : string) :
  Py.all_chars host_char host = true ->
  Py.remove_chars unsafe_byte (host +:+ rest) = host +:+ Py.remove_chars unsafe_byte rest.
Proof.
  induction host as [|c host IH]; [done|]. cbn [Py.all_chars].
  intros [Hc Hrest]%andb_true_iff. rewrite !app_cons. cbn [Py.remove_chars].
  destruct (host_char_facts c Hc) as (-> & _). by rewrite IH.
Qed.

Lemma take_until_host (host rest : string) :
  Py.all_chars host_char host = true ->
  rest = "" \/ (exists r, rest = String "/" r) ->
  Py.take_until netloc_delim (host +:+ rest) = host.
Proof.
  intros Hhost Hrest. induction host as [|c host IH].
  - rewrite app_empty_l. by destruct Hrest as [->|[r ->]].
  - cbn [Py.all_chars] in Hhost. apply andb_true_iff in Hhost as [Hc Hhost].
    rewrite app_cons. cbn [Py.take_until].
    destruct (host_char_facts c Hc) as (_ & -> & _). by rewrite IH.
Qed.

Lemma host_chars_plain (host : string) :
  Py.all_chars host_char host = true ->
  Py.any_char (Ascii.eqb "[") host = false
  /\ Py.any_char (Ascii.eqb "]") host = false
  /\ Py.all_chars is_ascii host = true.
Proof.
  induction host as [|c host IH]; [done|]. cbn [Py.all_chars Py.any_char].
  intros [Hc Hhost]%andb_true_iff.
  destruct (host_char_facts c Hc) as (_ & _ & -> & -> & ->).
  destruct (IH Hhost) as (-> & -> & ->). done.
Qed.

Lemma authority_netloc (lib : Checks) (host rest : string) :
  Py.all_chars host_char host = true ->
  rest = "" \/ (exists r, rest = String "/" r) ->
  (let netloc := Py.take_until netloc_delim (host +:+ rest) in
   let has_open := Py.any_char (Ascii.eqb "[") netloc in
   let has_close := Py.any_char (Ascii.eqb "]") netloc in
   if (has_open && negb has_close) || (has_close && negb has_open) then None
   else if has_open && has_close && negb (check_bracketed_netloc lib netloc) then None
   else if Py.truthy netloc && negb (Py.all_chars is_ascii netloc)
           && negb (checknetloc lib netloc) then None
   else Some netloc) = Some host.
Proof.
  intros Hhost Hrest. cbn zeta. rewrite take_until_host by done.
  destruct (host_chars_plain host Hhost) as (-> & -> & ->).
  cbn. by rewrite andb_false_r.
Qed.

Lemma remove_unsafe_rest (rest : string) :
  rest = "" \/ (exists r, rest = String "/" r) ->
  Py.remove_chars unsafe_byte rest = ""
  \/ exists r, Py.remove_chars unsafe_byte rest = String "/" r.
Proof. intros [->|[r ->]]; [by left|]. right. by eexists. Qed.

Lemma https_prefix (y : string) :
  drop_scheme (Py.remove_chars unsafe_byte (Py.lstrip_by c0_or_space ("https://" +:+ y)))
  = String "/" (String "/" (Py.remove_chars unsafe_byte y)).
Proof. reflexivity. Qed.

Lemma http_prefix (y : string) :
  drop_scheme (Py.remove_chars unsafe_byte (Py.lstrip_by c0_or_space ("http://" +:+ y)))
  = String "/" (String "/" (Py.remove_chars unsafe_byte y)).
Proof. reflexivity. Qed.

(** For [http] and [https] addresses whose host is made of letters, digits,
    hyphens and dots, [netloc] is that host. *)
Lemma urlparse_netloc_https (lib : Checks) (host rest : string) :
  Py.all_chars host_char host = true ->
  rest = "" \/ (exists r, rest = String "/" r) ->
  urlparse_netloc lib ("https://" +:+ host +:+ rest) = Some host.
Proof.
  intros Hhost Hrest. unfold urlparse_netloc. cbn zeta.
  rewrite https_prefix, remove_unsafe_host by done.
  apply authority_netloc; [done|]. by apply remove_unsafe_rest.
Qed.

Lemma urlparse_netloc_http (lib : Checks) (host rest : string) :
  Py.all_chars host_char host = true ->
  rest = "" \/ (exists r, rest = String "/" r) ->
  urlparse_netloc lib ("http://" +:+ host +:+ rest) = Some host.
Proof.
  intros Hhost Hrest. unfold urlparse_netloc. cbn zeta.
  rewrite http_prefix, remove_unsafe_host by done.
  apply authority_netloc; [done|]. by apply remove_unsafe_rest.
Qed.

(** The parser on a few addresses, as the library answers them. *)
Example netloc_keeps_case :
  urlparse_netloc Scenario.lib_ok "https://Archive.ORG/x/y.pdf" = Some "Archive.ORG".
Proof. reflexivity. Qed.

Example netloc_keeps_userinfo_and_port :
  urlparse_netloc Scenario.lib_ok "  http://user@doi.org:80?x" = Some "user@doi.org:80".
Proof. reflexivity. Qed.

Example netloc_needs_double_slash :
  urlparse_netloc Scenario.lib_ok "doi.org/10.1002/andp.19053221004" = Some "".
Proof. reflexivity. Qed.

Example netloc_drops_tab_and_newline :
  urlparse_netloc Scenario.lib_ok
    ("http:/" +:+ String "009" ("/doi" +:+ String "010" ".org/")) = Some "doi.org".
Proof. reflexivity. Qed.

Example netloc_unbalanced_bracket_raises :
  urlparse_netloc Scenario.lib_ok "http://[" = None.
Proof. reflexivity. Qed.


End UrlShape.

(** ** Host trust policy *)
Section HostPolicy.
Import Preserver.

Lemma host_matches_iff (hosts : list string) (host : string) :
  host_matches hosts host = true <->
  exists h, h ∈ hosts /\ (Py.is_suffix h host \/ Py.is_substring h host).
Proof.
  unfold host_matches. rewrite existsb_exists. split.
  - intros (h & Hin & Hm). exists h. rewrite list_elem_of_In. split; [done|].
    apply orb_true_iff in Hm as [Hm|Hm].
    + left. by apply endswith_iff.
    + right. by apply contains_iff.
  - intros (h & Hin & Hm). exists h. rewrite <- list_elem_of_In. split; [done|].
    apply orb_true_iff. destruct Hm as [Hm|Hm].
    + left. by apply endswith_iff.
    + right. by apply contains_iff.
Qed.




Lemma host_on_whitelist_nocase (n n' : string) :
  Py.lower n = Py.lower n' -> host_on_whitelist n -> host_on_whitelist n'.
Proof. unfold host_on_whitelist. by intros ->. Qed.

End HostPolicy.

Section HostPolicyClaims.
Import Preserver.




End HostPolicyClaims.

(** ** Validator *)
Section ValidatorClaims.
Import Preserver.



End ValidatorClaims.

Section ValidatorAcceptance.
Import Preserver.

(** C5 (amended).  A file that parses as a PDF, whose extracted text
    contains the subject keyword (letter case ignored) and whose page count
    is in [1,200], is accepted whenever the source URL is absent, empty or
    has a host that parses; the venue flag is recorded as computed and plays
    no part in acceptance. *)
Theorem subject_keyword_accepts (lib : UrlLib.Checks) (fs : gmap string File)
    (path : string) (source_url : option string) (accept : bool)
    (trusted : list string) (book : bool) (pdf : PdfInfo) (netloc : string) :
  fs !! path ≫= file_pdf = Some pdf ->
  Py.contains "einstein" (Py.lower (pdf_text pdf)) = true ->
  1 <= pdf_pages pdf <= 200 ->
  source_netloc lib source_url = Some netloc ->
  let c := validate_pdf lib fs path source_url accept trusted book in
  c_valid_primary c = true
  /\ c_has_einstein c = true
  /\ c_page_sane c = true
  /\ c_has_venue c =
       existsb (fun v => Py.contains (Py.lower v) (Py.lower (pdf_text pdf))) VENUE_KEYWORDS.
Proof.
  intros Hpdf Hkw Hpages Hnet. unfold validate_pdf. rewrite Hpdf, Hnet. cbn zeta.
  cbn [c_valid_primary c_has_einstein c_page_sane c_has_venue].
  rewrite Hkw.
  assert (Hsane : (1 <=? pdf_pages pdf) && (pdf_pages pdf <=? 200) = true).
  { apply andb_true_iff. split; lia. }
  rewrite Hsane. cbn [orb andb]. repeat split.
  repeat match goal with |- context [if ?b then _ else _] => destruct b end; done.
Qed.

(** The article is accepted with a venue name on its first pages and
    without one. *)
Lemma subject_keyword_accepts_witness :
  c_valid_primary
    (validate_pdf Scenario.lib_ok Scenario.disk_article "paper.pdf"
       (Some "https://example.org/a.pdf") false [] false) = true
  /\ c_has_venue
       (validate_pdf Scenario.lib_ok Scenario.disk_article "paper.pdf"
          (Some "https://example.org/a.pdf") false [] false) = true
  /\ c_valid_primary
       (validate_pdf Scenario.lib_ok Scenario.disk_plain "paper.pdf"
          (Some "https://example.org/a.pdf") false [] false) = true
  /\ c_has_venue
       (validate_pdf Scenario.lib_ok Scenario.disk_plain "paper.pdf"
          (Some "https://example.org/a.pdf") false [] false) = false.
Proof.
  pose proof (subject_keyword_accepts Scenario.lib_ok Scenario.disk_article "paper.pdf"
                (Some "https://example.org/a.pdf") false [] false
                _ "example.org" eq_refl eq_refl ltac:(cbn; lia) eq_refl) as (Ha & _ & _ & Hva).
  pose proof (subject_keyword_accepts Scenario.lib_ok Scenario.disk_plain "paper.pdf"
                (Some "https://example.org/a.pdf") false [] false
                _ "example.org" eq_refl eq_refl ltac:(cbn; lia) eq_refl) as (Hp & _ & _ & Hvp).
  exact (conj Ha (conj (eq_trans Hva eq_refl) (conj Hp (eq_trans Hvp eq_refl)))).
Defined.

(** C5 as stated fails: when the host of the source URL does not parse,
    the validator's catch-all handler answers with the all-false result,
    also for a thirteen-page article that names the subject. *)
Lemma subject_keyword_rejected_on_bad_source_url :
  (exists pdf,
     Scenario.disk_article !! "paper.pdf" ≫= file_pdf = Some pdf
     /\ Py.contains "einstein" (Py.lower (pdf_text pdf)) = true
     /\ 1 <= pdf_pages pdf <= 200)
  /\ UrlLib.urlparse_netloc Scenario.lib_ok "http://[" = None
  /\ c_valid_primary
       (validate_pdf Scenario.lib_ok Scenario.disk_article "paper.pdf"
          (Some "http://[") false [] false) = false.
Proof.
  split; [|split; reflexivity].
  eexists. split; [reflexivity|]. split; [reflexivity|]. cbn. lia.
Qed.

End ValidatorAcceptance.

(** ** Candidate resolver *)
Section ResolverClaims.
Import Preserver.
Variable env : Env.

Lemma append_if_app (l : list string) (x : option string) :
  append_if l x = l ++ append_if [] x.
Proof. destruct x as [u|]; simpl; [destruct (Py.truthy u)|]; by rewrite ?app_nil_r. Qed.

Lemma keep_primary_app (l1 l2 : list string) :
  keep_primary env (l1 ++ l2) = keep_primary env l1 ++ keep_primary env l2.
Proof. unfold keep_primary. induction l1 as [|x l1 IH]; simpl; [done|]. rewrite IH. by destruct (_ && _). Qed.

Lemma first_primary_pdf_head (locs : list OaLocation) :
  first_primary_pdf env locs = head (omap (primary_pdf_of env) locs).
Proof.
  induction locs as [|L locs IH]; simpl; [done|].
  destruct (primary_pdf_of env L); [done|]. exact IH.
Qed.

Lemma primary_pdf_of_passes (loc : OaLocation) (u : string) :
  primary_pdf_of env loc = Some u ->
  Py.truthy u && is_primary_url (urllib env) u = true.
Proof.
  unfold primary_pdf_of.
  destruct (Py.truthy _ && is_primary_url _ _) eqn:H; [|done]. by intros [= <-].
Qed.

Lemma first_primary_pdf_passes (locs : list OaLocation) (u : string) :
  first_primary_pdf env locs = Some u ->
  Py.truthy u && is_primary_url (urllib env) u = true.
Proof.
  induction locs as [|L locs IH]; simpl; [done|].
  destruct (primary_pdf_of env L) eqn:HL; [|exact IH].
  intros [= <-]. by eapply primary_pdf_of_passes.
Qed.

Lemma try_unpaywall_passes (doi u : string) :
  (try_unpaywall env doi).1 = Some u ->
  Py.truthy u && is_primary_url (urllib env) u = true.
Proof.
  unfold try_unpaywall.
  destruct (_ || _); [done|]. cbn [fst].
  destruct (client_get_unpaywall _ _ _) as [r|]; [|done].
  destruct (400 <=? _); [done|].
  destruct (up_json r) as [data|]; [|done].
  destruct (primary_pdf_of env _) eqn:Hb.
  - intros [= <-]. by eapply primary_pdf_of_passes.
  - apply first_primary_pdf_passes.
Qed.

(** C6 (amended).  For a record with an identifier, and with the contact
    email configured, resolution queries the open-access lookup and takes
    from it at most one URL: the first, among the best location and then
    the listed locations in order, whose PDF URL is non-empty and passes the
    host-trust check.  That URL is the candidate right after the resolved
    identifier URL; the other listed locations are not added. *)
Theorem unpaywall_contributes_first_primary (rec : Rec) :
  let doi := Py.strip (rec_doi rec) in
  let bibcode := Py.strip (rec_bibcode rec) in
  let url_hint := Py.strip (rec_url_hint rec) in
  let email := Py.strip (UNPAYWALL_EMAIL env) in
  Py.truthy doi = true ->
  Py.truthy email = true ->
  (try_unpaywall env doi).1 =
    match client_get_unpaywall env ("https://api.unpaywall.org/v2/" +:+ doi) email with
    | None => None
    | Some r =>
        if 400 <=? up_status_code r then None
        else match up_json r with
             | None => None
             | Some data =>
                 head (omap (primary_pdf_of env)
                         (default {| url_for_pdf := None |} (best_oa_location data)
                            :: default [] (oa_locations data)))
             end
    end
  /\ forall u, (try_unpaywall env doi).1 = Some u ->
       (resolve_candidates env rec).1.2 =
         keep_primary env (append_if [] (resolve_doi env doi).1) ++ [u] ++
         keep_primary env
           ((if Py.truthy bibcode then append_if [] (try_ads_pdf env bibcode) else [])
            ++ (if Py.truthy url_hint then [url_hint] else [])).
Proof.
  intros doi bibcode url_hint email Hdoi Hemail. split.
  - unfold try_unpaywall. fold doi email. rewrite Hdoi, Hemail. cbn [negb orb fst].
    destruct (client_get_unpaywall _ _ _) as [r|]; [|done].
    destruct (400 <=? _); [done|].
    destruct (up_json r) as [data|]; [|done].
    cbn [omap list_omap head]. destruct (primary_pdf_of env _); [done|].
    apply first_primary_pdf_head.
  - intros u Hu. unfold resolve_candidates. fold doi bibcode url_hint.
    rewrite Hdoi. cbn zeta. cbn [fst snd]. rewrite Hu.
    pose proof (try_unpaywall_passes _ _ Hu) as Hpass.
    apply andb_true_iff in Hpass as [Htru Hprim].
    set (rd := (resolve_doi env doi).1).
    set (ads := try_ads_pdf env bibcode).
    assert (Hlist :
      keep_primary env
        ((if Py.truthy url_hint
          then (if Py.truthy bibcode
                then append_if (append_if (append_if [] rd) (Some u)) ads
                else append_if (append_if [] rd) (Some u)) ++ [url_hint]
          else (if Py.truthy bibcode
                then append_if (append_if (append_if [] rd) (Some u)) ads
                else append_if (append_if [] rd) (Some u))))
      = keep_primary env (append_if [] rd) ++ [u] ++
        keep_primary env
          ((if Py.truthy bibcode then append_if [] ads else [])
           ++ (if Py.truthy url_hint then [url_hint] else []))).
    { assert (Hu1 : keep_primary env [u] = [u]).
      { unfold keep_primary. simpl. by rewrite Htru, Hprim. }
      assert (Hone : append_if (append_if [] rd) (Some u) = append_if [] rd ++ [u]).
      { simpl. by rewrite Htru. }
      rewrite Hone.
      destruct (Py.truthy url_hint), (Py.truthy bibcode);
        rewrite ?(append_if_app (_ ++ _) ads), ?keep_primary_app, ?Hu1, ?app_nil_r,
                <- ?app_assoc; done. }
    rewrite Hlist.
    destruct (keep_primary env (append_if [] rd)); reflexivity.
Qed.

End ResolverClaims.

Lemma unpaywall_contributes_first_primary_witness :
  (Preserver.try_unpaywall Scenario.with_oa_lookup "10.1002/andp.19053221004").1
    = Some "https://archive.org/download/annalen/annalen.pdf"
  /\ (Preserver.resolve_candidates Scenario.with_oa_lookup Scenario.electrodynamics_doi).1.2
     = [ "https://onlinelibrary.wiley.com/doi/10.1002/andp.19053221004";
         "https://archive.org/download/annalen/annalen.pdf" ].
Proof.
  pose proof (unpaywall_contributes_first_primary Scenario.with_oa_lookup
                Scenario.electrodynamics_doi eq_refl eq_refl) as [H1 H2].
  exact (conj H1 (H2 _ H1)).
Defined.

(** C6 as stated fails: the lookup lists a second location whose PDF URL
    passes the host-trust check, and resolution does not add it. *)
Lemma unpaywall_second_location_dropped :
  Py.truthy (Py.strip (Preserver.rec_doi Scenario.electrodynamics_doi)) = true
  /\ Py.truthy (Py.strip (Preserver.UNPAYWALL_EMAIL Scenario.with_oa_lookup)) = true
  /\ Preserver.client_get_unpaywall Scenario.with_oa_lookup
       "https://api.unpaywall.org/v2/10.1002/andp.19053221004" "archive@example.org"
     = Some Scenario.oa_reply
  /\ Preserver.up_json Scenario.oa_reply
     = Some {| Preserver.best_oa_location := Some Scenario.oa_best;
               Preserver.oa_locations := Some [Scenario.oa_best; Scenario.oa_second] |}
  /\ Preserver.url_for_pdf Scenario.oa_second
     = Some "https://gallica.bnf.fr/ark:/12148/annalen.pdf"
  /\ Preserver.is_primary_url Scenario.lib_ok
       "https://gallica.bnf.fr/ark:/12148/annalen.pdf" = true
  /\ ~ In "https://gallica.bnf.fr/ark:/12148/annalen.pdf"
       (Preserver.resolve_candidates Scenario.with_oa_lookup Scenario.electrodynamics_doi).1.2.
Proof.
  repeat split; try reflexivity.
  vm_compute. intros [H|[H|[]]]; discriminate.
Qed.

(** ** Per-record fetch loop *)
Section FetchClaims.
Import Preserver.
Variable env : Env.
Variable args : Args.

Lemma is_licensed_iff (url : string) :
  is_licensed url = true <->
  Py.is_substring "jstor.org" url \/ Py.is_substring "springer" url.
Proof. unfold is_licensed. by rewrite orb_true_iff, !contains_iff. Qed.

Lemma candidates_loop_all_licensed (out_pdf qdir : string) (cands : list string)
    (st : Status) (w : World) :
  allow_licensed args = false ->
  Forall (fun u => is_licensed u = true) cands ->
  candidates_loop env args out_pdf qdir cands st w = (st, w).
Proof.
  intros Hoff Hall. induction Hall as [|u cands Hu _ IH]; simpl; [done|].
  by rewrite Hu, Hoff.
Qed.

Lemma resolve_candidates_title_year (rec : Rec) :
  (resolve_candidates env rec).1.1 = (Py.strip (rec_title rec), Py.strip (rec_year rec)).
Proof. reflexivity. Qed.

Lemma fetch_one_unfold (rec : Rec) (w : World) :
  fetch_one env args rec w =
  fetch_candidates env args (Py.strip (rec_title rec)) (Py.strip (rec_year rec))
    (resolve_candidates env rec).1.2 (log_all (resolve_candidates env rec).2 w).
Proof.
  unfold fetch_one.
  pose proof (resolve_candidates_title_year rec) as H.
  destruct (resolve_candidates env rec) as [[[t y] c] l]. simpl in *.
  by injection H as -> ->.
Qed.

(** C9.  With the allow-licensed switch off, a candidate whose URL
    contains ["jstor.org"] or ["springer"] is passed over: the loop goes on
    with the same entry (so [chosen_url] is not set) and the same world (so
    no GET is issued).  A record that has candidates, all of them such URLs,
    ends not accepted, with [chosen_url] and [saved_as] null and an empty
    note, and the world is as resolution left it: the fetch loop sends no
    request and writes nothing. *)
Theorem licensed_candidates_skipped :
  allow_licensed args = false ->
  (forall out_pdf qdir url rest st w,
      Py.is_substring "jstor.org" url \/ Py.is_substring "springer" url ->
      candidates_loop env args out_pdf qdir (url :: rest) st w
      = candidates_loop env args out_pdf qdir rest st w)
  /\ (forall rec w,
        (resolve_candidates env rec).1.2 <> [] ->
        Forall (fun url => Py.is_substring "jstor.org" url \/ Py.is_substring "springer" url)
          (resolve_candidates env rec).1.2 ->
        let st := (fetch_one env args rec w).1 in
        (fetch_one env args rec w).2 = log_all (resolve_candidates env rec).2 w
        /\ valid_primary st = None
        /\ validated st = false
        /\ chosen_url st = None
        /\ saved_as st = None
        /\ sha256 st = None
        /\ note st = "").
Proof.
  intros Hoff. split.
  - intros out_pdf qdir url rest st w Hlic. apply is_licensed_iff in Hlic.
    simpl. by rewrite Hlic, Hoff.
  - intros rec w Hne Hall. rewrite fetch_one_unfold. unfold fetch_candidates.
    destruct (resolve_candidates env rec).1.2 as [|u cands] eqn:Hc; [done|].
    rewrite candidates_loop_all_licensed; [done..|].
    eapply Forall_impl; [exact Hall|]. intros x Hx. by apply is_licensed_iff.
Qed.

(** When resolution yields no whitelisted candidate, the entry is not
    accepted, its note is ["no_primary_candidate"], [chosen_url], [saved_as]
    and [sha256] are null, and the world is as resolution left it: no GET
    of the fetch loop, no file written.  This covers a record whose only
    candidate is a hinted URL that fails the host check, and a record whose
    identifier, secondary identifier and hint are empty strings. *)
Lemma no_candidates_entry (rec : Rec) (w : World) :
  ((resolve_candidates env rec).1.2 = [] ->
     let st := (fetch_one env args rec w).1 in
     (fetch_one env args rec w).2 = log_all (resolve_candidates env rec).2 w
     /\ valid_primary st = None
     /\ validated st = false
     /\ note st = "no_primary_candidate"
     /\ chosen_url st = None
     /\ saved_as st = None
     /\ sha256 st = None)
  /\ (Py.strip (rec_doi rec) = "" ->
      Py.strip (rec_bibcode rec) = "" ->
      is_primary_url (urllib env) (Py.strip (rec_url_hint rec)) = false ->
      resolve_candidates env rec
      = ((Py.strip (rec_title rec), Py.strip (rec_year rec), []), []))
  /\ (Py.strip (rec_doi rec) = "" ->
      Py.strip (rec_bibcode rec) = "" ->
      Py.strip (rec_url_hint rec) = "" ->
      resolve_candidates env rec
      = ((Py.strip (rec_title rec), Py.strip (rec_year rec), []), [])).
Proof.
  split; [|split].
  - intros Hnone. rewrite fetch_one_unfold, Hnone. by cbn.
  - intros Hdoi Hbib Hhint. unfold resolve_candidates.
    rewrite Hdoi, Hbib. cbn [Py.truthy fst snd].
    destruct (Py.truthy (Py.strip (rec_url_hint rec))); [|done].
    unfold keep_primary. simpl. by rewrite Hhint, andb_false_r.
  - intros Hdoi Hbib Hhint. unfold resolve_candidates.
    by rewrite Hdoi, Hbib, Hhint.
Qed.

End FetchClaims.

Lemma licensed_candidates_skipped_witness :
  (Preserver.resolve_candidates Scenario.offline
     (Scenario.hinted "https://www.jstor.org/stable/1968843")).1.2
    = ["https://www.jstor.org/stable/1968843"]
  /\ (Preserver.fetch_one Scenario.offline Scenario.default_args
        (Scenario.hinted "https://www.jstor.org/stable/1968843") Scenario.empty_world).2
     = Scenario.empty_world
  /\ Preserver.chosen_url
       (Preserver.fetch_one Scenario.offline Scenario.default_args
          (Scenario.hinted "https://www.jstor.org/stable/1968843") Scenario.empty_world).1
     = None
  /\ Preserver.note
       (Preserver.fetch_one Scenario.offline Scenario.default_args
          (Scenario.hinted "https://www.jstor.org/stable/1968843") Scenario.empty_world).1
     = "".
Proof.
  split; [reflexivity|].
  assert (Hall : Forall (fun url => Py.is_substring "jstor.org" url \/ Py.is_substring "springer" url)
            (Preserver.resolve_candidates Scenario.offline
               (Scenario.hinted "https://www.jstor.org/stable/1968843")).1.2).
  { constructor; [|constructor]. left. by exists "https://www.", "/stable/1968843". }
  pose proof (proj2 (licensed_candidates_skipped Scenario.offline Scenario.default_args eq_refl)
                (Scenario.hinted "https://www.jstor.org/stable/1968843") Scenario.empty_world
                ltac:(discriminate) Hall) as (Hw & _ & _ & Hc & _ & _ & Hn).
  exact (conj Hw (conj Hc Hn)).
Defined.

Lemma no_candidates_entry_example :
  (Preserver.resolve_candidates Scenario.offline
     (Scenario.hinted "https://example.com/einstein1905.pdf")).1.2 = []
  /\ (Preserver.fetch_one Scenario.offline Scenario.default_args
        (Scenario.hinted "https://example.com/einstein1905.pdf") Scenario.empty_world).2
     = Scenario.empty_world
  /\ Preserver.note
       (Preserver.fetch_one Scenario.offline Scenario.default_args
          (Scenario.hinted "https://example.com/einstein1905.pdf") Scenario.empty_world).1
     = "no_primary_candidate"
  /\ Preserver.saved_as
       (Preserver.fetch_one Scenario.offline Scenario.default_args
          (Scenario.hinted "https://example.com/einstein1905.pdf") Scenario.empty_world).1
     = None.
Proof.
  pose proof (no_candidates_entry Scenario.offline Scenario.default_args
                (Scenario.hinted "https://example.com/einstein1905.pdf")
                Scenario.empty_world) as (Hentry & Hhint & _).
  pose proof (f_equal (fun r => r.1.2) (Hhint eq_refl eq_refl eq_refl)) as Hnone.
  destruct (Hentry Hnone) as (Hw & _ & _ & Hn & _ & Hs & _).
  exact (conj Hnone (conj Hw (conj Hn Hs))).
Qed.

(** ** Invariants of the fetch loop *)
Section FetchInvariants.
Import Preserver.
Variable env : Env.
Variable args : Args.

Lemma extends_quietly_refl (w : World) : extends_quietly w w.
Proof. exists []. by rewrite app_nil_r. Qed.

Lemma extends_quietly_step (w w1 w2 : World) (e : Event) :
  extends_quietly w w1 -> is_move e = false -> w_trace w2 = w_trace w1 ++ [e] ->
  extends_quietly w w2.
Proof.
  intros (evs & Htr & Hq) He Hw2. exists (evs ++ [e]).
  rewrite Hw2, Htr, <- app_assoc. split; [done|].
  rewrite existsb_app, Hq. cbn. by rewrite He.
Qed.

Lemma extends_do_get (w w1 : World) (u : string) :
  extends_quietly w w1 -> extends_quietly w (do_get u w1).
Proof. intros H. by apply (extends_quietly_step w w1 _ (EvGet u)). Qed.

Lemma extends_backoff_sleep (w w1 : World) (attempt : Z) :
  extends_quietly w w1 -> extends_quietly w (backoff_sleep env attempt w1).
Proof.
  intros H.
  by apply (extends_quietly_step w w1 _
              (EvSleep (inject_Z (backoff_base attempt)
                        + random_uniform env 0 1 (w_draws w1)))).
Qed.

Lemma extends_write_file (w w1 : World) (path : string) (f : File) :
  extends_quietly w w1 -> extends_quietly w (write_file path f w1).
Proof. intros H. by apply (extends_quietly_step w w1 _ (EvWrite path)). Qed.

Lemma extends_log (w w1 : World) (e : Event) :
  is_move e = false -> extends_quietly w w1 -> extends_quietly w (log e w1).
Proof. intros He H. by apply (extends_quietly_step w w1 _ e). Qed.

Lemma extends_html_to_pdf (w w1 : World) (u out_pdf : string) :
  extends_quietly w w1 -> extends_quietly w (html_to_pdf env u out_pdf w1).2.
Proof.
  intros H. unfold html_to_pdf, engine_wrote.
  repeat case_match; cbn [snd];
    auto using extends_write_file, extends_log.
Qed.

Lemma extends_browser_fetch_pdf (w w1 : World) (u out_pdf : string) :
  extends_quietly w w1 -> extends_quietly w (browser_fetch_pdf env u out_pdf w1).2.
Proof.
  intros H. unfold browser_fetch_pdf, engine_wrote.
  repeat case_match; cbn [snd];
    auto using extends_write_file, extends_log.
Qed.

Lemma quiet_is_final (w : World) (st' : Status) (w' : World) :
  extends_quietly w w' -> quarantine_is_final w st' w'.
Proof. intros (evs & Htr & Hq). exists evs. split; [done|]. by left. Qed.

Lemma move_is_final (w w1 : World) (st' : Status) (src dst : string) :
  extends_quietly w w1 ->
  note st' = "quarantined_failed_validation" ->
  saved_as st' = Some dst ->
  quarantine_is_final w st' (move_file src dst w1).
Proof.
  intros (evs & Htr & Hq) Hn Hs. exists (evs ++ [EvMove src dst]).
  cbn [move_file w_trace]. rewrite Htr, <- app_assoc. split; [done|].
  right. by exists evs, src, dst.
Qed.

Lemma extends_html_to_pdf_eq (w w1 w2 : World) (u out_pdf : string) (ok : bool) :
  html_to_pdf env u out_pdf w1 = (ok, w2) -> extends_quietly w w1 -> extends_quietly w w2.
Proof. intros Heq H. apply (extends_html_to_pdf w w1 u out_pdf) in H. by rewrite Heq in H. Qed.

Lemma extends_browser_fetch_pdf_eq (w w1 w2 : World) (u out_pdf : string) (ok : bool) :
  browser_fetch_pdf env u out_pdf w1 = (ok, w2) -> extends_quietly w w1 -> extends_quietly w w2.
Proof. intros Heq H. apply (extends_browser_fetch_pdf w w1 u out_pdf) in H. by rewrite Heq in H. Qed.

Create HintDb fetch_trace.

#[local] Hint Resolve extends_do_get extends_backoff_sleep extends_write_file
  extends_html_to_pdf_eq extends_browser_fetch_pdf_eq : fetch_trace.

Lemma attempt_body_quarantine (out_pdf qdir url : string)
    (again : Status -> World -> Flow * World) (attempt : Z) (st : Status) (w0 w : World) :
  extends_quietly w0 w ->
  (forall st1 w1, extends_quietly w0 w1 -> flow_respects_quarantine w0 (again st1 w1)) ->
  flow_respects_quarantine w0 (attempt_body env args out_pdf qdir url again attempt st w).
Proof.
  intros Hw Hagain. unfold attempt_body. cbn zeta.
  repeat case_match; subst;
    unfold flow_respects_quarantine in *; cbn [fst snd];
    first [ solve [apply Hagain; eauto 8 with fetch_trace]
          | solve [eauto 8 with fetch_trace]
          | solve [apply quiet_is_final; eauto 8 with fetch_trace]
          | solve [apply move_is_final; eauto 8 with fetch_trace] ].
Qed.

Lemma retry_loop_quarantine (out_pdf qdir url : string) (n : nat) :
  forall (attempt : Z) (st : Status) (w0 w : World),
    extends_quietly w0 w ->
    flow_respects_quarantine w0 (retry_loop env args out_pdf qdir url n attempt st w).
Proof.
  induction n as [|n IH]; intros attempt st w0 w Hw; cbn [retry_loop].
  - exact Hw.
  - apply attempt_body_quarantine; [done|]. intros st1 w1 Hw1. by apply IH.
Qed.

Lemma candidates_loop_quarantine (out_pdf qdir : string) (cands : list string) :
  forall (st : Status) (w0 w : World),
    extends_quietly w0 w ->
    quarantine_is_final w0
      (candidates_loop env args out_pdf qdir cands st w).1
      (candidates_loop env args out_pdf qdir cands st w).2.
Proof.
  induction cands as [|u rest IH]; intros st w0 w Hw; cbn [candidates_loop].
  - by apply quiet_is_final.
  - destruct (is_licensed u && negb (allow_licensed args)); [by apply IH|].
    pose proof (retry_loop_quarantine out_pdf qdir u (Z.to_nat (retries args)) 0
                  (set_chosen_url st u) w0 w Hw) as Hflow.
    destruct (retry_loop env args out_pdf qdir u _ 0 _ w) as [[st'|st'] w'];
      unfold flow_respects_quarantine in Hflow; cbn [fst snd] in *.
    + exact Hflow.
    + by apply IH.
Qed.




(** Off the Project Gutenberg render path a digest is recorded only with
    an accepted validation. *)
Section NoGutenberg.
Hypothesis no_gutenberg : forall n u r,
  sess_get env n u = GetReplied r -> Py.contains "gutenberg.org" (final_url r) = false.

Lemma attempt_body_hash (out_pdf qdir url : string)
    (again : Status -> World -> Flow * World) (attempt : Z) (st : Status) (w : World) :
  sha256 st = None ->
  (forall st1 w1, sha256 st1 = None -> flow_hashes_valid_only (again st1 w1)) ->
  flow_hashes_valid_only (attempt_body env args out_pdf qdir url again attempt st w).
Proof.
  intros Hst Hagain. unfold attempt_body. cbn zeta.
  destruct (sess_get env (w_gets w) url) as [msg|r] eqn:Hget; [by apply Hagain|].
  pose proof (no_gutenberg _ _ _ Hget) as Hno. rewrite Hno.
  repeat case_match; subst;
    first [ solve [by apply Hagain]
          | solve [unfold flow_hashes_valid_only, hashed_only_if_valid; cbn; auto]
          | solve [unfold flow_hashes_valid_only, hashed_only_if_valid; cbn;
                   right; congruence] ].
Qed.

Lemma retry_loop_hash (out_pdf qdir url : string) (n : nat) :
  forall (attempt : Z) (st : Status) (w : World),
    sha256 st = None ->
    flow_hashes_valid_only (retry_loop env args out_pdf qdir url n attempt st w).
Proof.
  induction n as [|n IH]; intros attempt st w Hst; cbn [retry_loop].
  - exact Hst.
  - apply attempt_body_hash; [done|]. intros st1 w1 Hst1. by apply IH.
Qed.

Lemma candidates_loop_hash (out_pdf qdir : string) (cands : list string) :
  forall (st : Status) (w : World),
    sha256 st = None ->
    hashed_only_if_valid (candidates_loop env args out_pdf qdir cands st w).1.
Proof.
  induction cands as [|u rest IH]; intros st w Hst; cbn [candidates_loop].
  - by left.
  - destruct (is_licensed u && negb (allow_licensed args)); [by apply IH|].
    pose proof (retry_loop_hash out_pdf qdir u (Z.to_nat (retries args)) 0
                  (set_chosen_url st u) w Hst) as Hflow.
    destruct (retry_loop env args out_pdf qdir u _ 0 _ w) as [[st'|st'] w'];
      unfold flow_hashes_valid_only in Hflow; cbn [fst snd] in *.
    + exact Hflow.
    + by apply IH.
Qed.

Lemma fetch_one_hash (rec : Rec) (w : World) :
  hashed_only_if_valid (fetch_one env args rec w).1.
Proof.
  rewrite fetch_one_unfold. unfold fetch_candidates.
  destruct (resolve_candidates env rec).1.2; [by left|].
  by apply candidates_loop_hash.
Qed.

End NoGutenberg.

End FetchInvariants.

Section RetryClaims.
Import Preserver.
Variable env : Env.
Variable args : Args.
Variables out_pdf qdir url : string.







(** On the direct path a downloaded file that fails validation is moved
    to the quarantine directory and the entry is returned at once, with
    note ["quarantined_failed_validation"]; whenever the retry loop of a
    candidate returns an entry, quarantined or accepted, that entry is the
    record's result and the remaining candidates are not tried; so in every
    run of the candidate loop a quarantine move, if there is one, is the
    last effect, and the entry is the one of the quarantined file. *)
Lemma quarantine_ends_record :
  (forall again attempt st w r f,
      sess_get env (w_gets w) url = GetReplied r ->
      retryable_status (status_code r) = false ->
      Py.contains "pdf" (Py.lower (content_type r)) || guess_pdf (final_url r) = true ->
      body r = BodyOk f ->
      let w1 := write_file out_pdf f (do_get url w) in
      let checks := validate env args out_pdf (final_url r) false w1 in
      let qpath := path_join qdir (basename out_pdf) in
      c_valid_primary checks = false ->
      attempt_body env args out_pdf qdir url again attempt st w
      = (Return (update_saved_noted st qpath checks "quarantined_failed_validation"),
         move_file out_pdf qpath w1))
  /\ (forall rest st w st' w',
        is_licensed url && negb (allow_licensed args) = false ->
        retry_loop env args out_pdf qdir url (Z.to_nat (retries args)) 0
          (set_chosen_url st url) w = (Return st', w') ->
        candidates_loop env args out_pdf qdir (url :: rest) st w = (st', w'))
  /\ (forall candidates st w,
        quarantine_is_final w
          (candidates_loop env args out_pdf qdir candidates st w).1
          (candidates_loop env args out_pdf qdir candidates st w).2).
Proof.
  split.
  - intros again attempt st w r f Hget Hretry Hpdf Hbody w1 checks qpath Hbad.
    unfold attempt_body. rewrite Hget, Hretry, Hpdf, Hbody.
    fold w1. fold checks. by rewrite Hbad.
  - split.
    + intros rest st w st' w' Hlic Hret. cbn [candidates_loop]. by rewrite Hlic, Hret.
    + intros candidates st w. apply candidates_loop_quarantine, extends_quietly_refl.
Qed.

End RetryClaims.


Lemma quarantine_ends_record_example :
  exists st' w',
    Preserver.candidates_loop Scenario.landing_then_article Scenario.default_args
      "einstein_primary/paper.pdf" "einstein_primary/quarantine"
      [Scenario.gateway_url; Scenario.archive_url]
      (Preserver.initial_status "T" "1905") Scenario.empty_world = (st', w')
    /\ Preserver.note st' = "quarantined_failed_validation"
    /\ Preserver.saved_as st' = Some "einstein_primary/quarantine/paper.pdf"
    /\ Preserver.w_gets w' = 1%nat.
Proof.
  eexists _, _. split.
  - apply (proj1 (proj2 (quarantine_ends_record Scenario.landing_then_article
                           Scenario.default_args
                           "einstein_primary/paper.pdf" "einstein_primary/quarantine"
                           Scenario.gateway_url))); [reflexivity|].
    change (Z.to_nat _) with 3%nat. cbn [Preserver.retry_loop].
    eapply (proj1 (quarantine_ends_record Scenario.landing_then_article Scenario.default_args
                     "einstein_primary/paper.pdf" "einstein_primary/quarantine"
                     Scenario.gateway_url)); reflexivity.
  - repeat split.
Qed.

(** C3, evaluated.  The record has two candidates.  The first delivers a
    file that fails validation: it is quarantined and the record ends there,
    with the quarantine entry and no digest, and the second candidate is
    never requested, although it alone would have been accepted.  On the
    browser path the same record goes on: there a first candidate whose
    saved page fails validation is followed by the request of the second,
    which is accepted. *)
Theorem quarantine_skips_next_candidate :
  (Preserver.resolve_candidates Scenario.landing_then_article Scenario.electrodynamics_ads).1.2
    = [Scenario.gateway_url; Scenario.archive_url]
  /\ Preserver.fetch_one Scenario.landing_then_article Scenario.default_args
       Scenario.electrodynamics_ads Scenario.empty_world
     = ({| Preserver.title := "Zur Elektrodynamik bewegter Koerper";
           Preserver.year := "1905";
           Preserver.chosen_url := Some Scenario.gateway_url;
           Preserver.saved_as :=
             Some "einstein_primary/quarantine/1905_Zur_Elektrodynamik_bewegter_Koerper.pdf";
           Preserver.sha256 := None;
           Preserver.validated := false;
           Preserver.has_einstein := false;
           Preserver.has_venue := false;
           Preserver.page_sane := true;
           Preserver.note := "quarantined_failed_validation";
           Preserver.text_len := 27;
           Preserver.pages := 1;
           Preserver.host := "ui.adsabs.harvard.edu";
           Preserver.valid_primary := Some false |},
        {| Preserver.w_gets := 1; Preserver.w_draws := 0;
           Preserver.w_fs :=
             {[ "einstein_primary/quarantine/1905_Zur_Elektrodynamik_bewegter_Koerper.pdf"
                := Scenario.landing_page ]};
           Preserver.w_trace :=
             [ Preserver.EvGet Scenario.gateway_url;
               Preserver.EvWrite
                 "einstein_primary/1905_Zur_Elektrodynamik_bewegter_Koerper.pdf";
               Preserver.EvMove
                 "einstein_primary/1905_Zur_Elektrodynamik_bewegter_Koerper.pdf"
                 "einstein_primary/quarantine/1905_Zur_Elektrodynamik_bewegter_Koerper.pdf"
             ] |})
  /\ Preserver.valid_primary
       (Preserver.fetch_candidates Scenario.landing_then_article Scenario.default_args
          "Zur Elektrodynamik bewegter Koerper" "1905" [Scenario.archive_url]
          Scenario.empty_world).1
     = Some true
  /\ (Preserver.resolve_candidates Scenario.browser_then_article
        Scenario.electrodynamics_doi_hinted).1.2
     = [Scenario.wiley_url; Scenario.archive_url]
  /\ Preserver.chosen_url
       (Preserver.fetch_one Scenario.browser_then_article Scenario.browser_args
          Scenario.electrodynamics_doi_hinted Scenario.empty_world).1
     = Some Scenario.archive_url
  /\ Preserver.valid_primary
       (Preserver.fetch_one Scenario.browser_then_article Scenario.browser_args
          Scenario.electrodynamics_doi_hinted Scenario.empty_world).1
     = Some true
  /\ Preserver.w_trace
       (Preserver.fetch_one Scenario.browser_then_article Scenario.browser_args
          Scenario.electrodynamics_doi_hinted Scenario.empty_world).2
     = [ Preserver.EvLookup "https://doi.org/10.1002/andp.19053221004";
         Preserver.EvGet Scenario.wiley_url;
         Preserver.EvBrowser Scenario.wiley_url;
         Preserver.EvWrite "einstein_primary/1905_Zur_Elektrodynamik_bewegter_Koerper.pdf";
         Preserver.EvGet Scenario.archive_url;
         Preserver.EvWrite "einstein_primary/1905_Zur_Elektrodynamik_bewegter_Koerper.pdf" ].
Proof. repeat split; vm_compute; reflexivity. Qed.

(** C2, evaluated: on the HTML-render path for a Project Gutenberg page the
    rendered file fails validation, and the entry nevertheless records its
    digest and keeps the file in the output directory. *)
Theorem gutenberg_render_hashed_when_rejected :
  (Preserver.resolve_candidates Scenario.gutenberg_render
     (Scenario.hinted Scenario.gutenberg_url)).1.2 = [Scenario.gutenberg_url]
  /\ Preserver.valid_primary
       (Preserver.fetch_one Scenario.gutenberg_render Scenario.default_args
          (Scenario.hinted Scenario.gutenberg_url) Scenario.empty_world).1
     = Some false
  /\ Preserver.sha256
       (Preserver.fetch_one Scenario.gutenberg_render Scenario.default_args
          (Scenario.hinted Scenario.gutenberg_url) Scenario.empty_world).1
     = Some "9e107d9d"
  /\ Preserver.saved_as
       (Preserver.fetch_one Scenario.gutenberg_render Scenario.default_args
          (Scenario.hinted Scenario.gutenberg_url) Scenario.empty_world).1
     = Some "einstein_primary/1905_Zur_Elektrodynamik_bewegter_Koerper.pdf"
  /\ Preserver.w_trace
       (Preserver.fetch_one Scenario.gutenberg_render Scenario.default_args
          (Scenario.hinted Scenario.gutenberg_url) Scenario.empty_world).2
     = [ Preserver.EvGet Scenario.gutenberg_url;
         Preserver.EvRender Scenario.gutenberg_url;
         Preserver.EvWrite "einstein_primary/1905_Zur_Elektrodynamik_bewegter_Koerper.pdf" ].
Proof. repeat split; vm_compute; reflexivity. Qed.

(** ** Discovery tool: [dedupe_rows] *)
Section DedupeClaims.
Import Discovery.

Lemma clashes_iff (kept : list Row) (r : Row) :
  clashes kept r = true <->
  (Py.truthy (bib_key r) = true /\ exists k, k ∈ kept /\ bib_key k = bib_key r)
  \/ (Py.truthy (doi_key r) = true /\ exists k, k ∈ kept /\ doi_key k = doi_key r).
Proof.
  unfold clashes, shares_key. rewrite existsb_exists. split.
  - intros (k & Hin & Hk). apply list_elem_of_In in Hin.
    apply orb_true_iff in Hk as [Hk|Hk]; apply andb_true_iff in Hk as [Ht Heq];
      apply bool_decide_eq_true in Heq; [left|right]; eauto.
  - intros [(Ht & k & Hin & Heq) | (Ht & k & Hin & Heq)];
      exists k; (split; [by apply (proj1 (list_elem_of_In _ _))|]);
      apply orb_true_iff; [left|right]; rewrite Ht;
      by apply bool_decide_eq_true_2.
Qed.

Lemma add_if_truthy_elem (k x : string) (s : gset string) :
  x ∈ add_if_truthy k s <-> x ∈ s \/ (Py.truthy k = true /\ x = k).
Proof.
  unfold add_if_truthy. destruct (Py.truthy k).
  - rewrite elem_of_union, elem_of_singleton. tauto.
  - split; [by left | by intros [?|[? _]]].
Qed.

Lemma dedupe_step_out (s : Seen) (r : Row) :
  seen_matches_kept s ->
  out (dedupe_step s r) = if clashes (out s) r then out s else out s ++ [r].
Proof.
  intros [Hb Hd]. unfold dedupe_step.
  destruct (Py.truthy (bib_key r) && bool_decide (bib_key r ∈ seen_bib s)) eqn:E1.
  { apply andb_true_iff in E1 as [Ht Hin]. apply bool_decide_eq_true in Hin.
    apply Hb in Hin as [_ Hk].
    assert (clashes (out s) r = true) as -> by (apply clashes_iff; left; eauto). done. }
  destruct (Py.truthy (doi_key r) && bool_decide (doi_key r ∈ seen_doi s)) eqn:E2.
  { apply andb_true_iff in E2 as [Ht Hin]. apply bool_decide_eq_true in Hin.
    apply Hd in Hin as [_ Hk].
    assert (clashes (out s) r = true) as -> by (apply clashes_iff; right; eauto). done. }
  destruct (clashes (out s) r) eqn:Hc; [|done]. exfalso.
  apply clashes_iff in Hc as [(Ht & Hk) | (Ht & Hk)].
  - assert (bib_key r ∈ seen_bib s) as Hin by (apply Hb; eauto).
    by rewrite Ht, bool_decide_eq_true_2 in E1.
  - assert (doi_key r ∈ seen_doi s) as Hin by (apply Hd; eauto).
    by rewrite Ht, bool_decide_eq_true_2 in E2.
Qed.

Lemma dedupe_step_inv (s : Seen) (r : Row) :
  seen_matches_kept s -> seen_matches_kept (dedupe_step s r).
Proof.
  intros Hinv. pose proof Hinv as [Hb Hd]. unfold dedupe_step.
  destruct (_ && _); [done|]. destruct (_ && _); [done|].
  split; intros x; cbn [seen_bib seen_doi out]; rewrite add_if_truthy_elem.
  - rewrite Hb. split.
    + intros [(Ht & k & Hin & Hk) | (Ht & ->)].
      * split; [done|]. exists k. split; [|done]. apply elem_of_app. by left.
      * split; [done|]. exists r. split; [|done]. apply elem_of_app. right. by apply list_elem_of_singleton.
    + intros (Ht & k & Hin & Hk). apply elem_of_app in Hin as [Hin|Hin].
      * left. eauto.
      * apply list_elem_of_singleton in Hin as ->. right. by subst.
  - rewrite Hd. split.
    + intros [(Ht & k & Hin & Hk) | (Ht & ->)].
      * split; [done|]. exists k. split; [|done]. apply elem_of_app. by left.
      * split; [done|]. exists r. split; [|done]. apply elem_of_app. right. by apply list_elem_of_singleton.
    + intros (Ht & k & Hin & Hk). apply elem_of_app in Hin as [Hin|Hin].
      * left. eauto.
      * apply list_elem_of_singleton in Hin as ->. right. by subst.
Qed.

Lemma dedupe_from_inv (rows : list Row) :
  forall s, seen_matches_kept s -> seen_matches_kept (dedupe_from s rows).
Proof.
  unfold dedupe_from. induction rows as [|r rows IH]; intros s Hs; simpl; [done|].
  by apply IH, dedupe_step_inv.
Qed.

Lemma initial_inv : seen_matches_kept {| seen_bib := ∅; seen_doi := ∅; out := [] |}.
Proof.
  split; intros x; cbn; (split; [by intros ?%not_elem_of_empty|]);
    intros (_ & k & Hin & _); by apply elem_of_nil in Hin.
Qed.

(** The loop, one row at a time from the right. *)
Lemma dedupe_rows_snoc (pre : list Row) (r : Row) :
  dedupe_rows (pre ++ [r]) =
  if clashes (dedupe_rows pre) r then dedupe_rows pre else dedupe_rows pre ++ [r].
Proof.
  unfold dedupe_rows, dedupe_from. rewrite fold_left_app. cbn [fold_left].
  apply dedupe_step_out, dedupe_from_inv, initial_inv.
Qed.

Lemma dedupe_rows_nil : dedupe_rows [] = [].
Proof. reflexivity. Qed.

Lemma dedupe_rows_sublist (rows : list Row) : dedupe_rows rows `sublist_of` rows.
Proof.
  induction rows as [|r pre IH] using rev_ind; [done|].
  rewrite dedupe_rows_snoc. destruct (clashes _ _).
  - by apply sublist_inserts_r.
  - by apply sublist_app.
Qed.

Lemma dedupe_rows_idem (rows : list Row) : dedupe_rows (dedupe_rows rows) = dedupe_rows rows.
Proof.
  induction rows as [|r pre IH] using rev_ind; [done|].
  rewrite dedupe_rows_snoc. destruct (clashes (dedupe_rows pre) r) eqn:Hc; [done|].
  by rewrite dedupe_rows_snoc, IH, Hc.
Qed.

Lemma nonempty_keys_app (key : Row -> string) (l1 l2 : list Row) :
  nonempty_keys key (l1 ++ l2) = nonempty_keys key l1 ++ nonempty_keys key l2.
Proof. unfold nonempty_keys. by rewrite fmap_app, List.filter_app. Qed.

Lemma elem_of_nonempty_keys (key : Row -> string) (rows : list Row) (x : string) :
  x ∈ nonempty_keys key rows <-> Py.truthy x = true /\ exists k, k ∈ rows /\ key k = x.
Proof.
  unfold nonempty_keys. rewrite list_elem_of_In, List.filter_In, <- list_elem_of_In, list_elem_of_fmap.
  split.
  - intros [(k & -> & Hin) Ht]. eauto.
  - intros (Ht & k & Hin & <-). eauto.
Qed.

Lemma dedupe_rows_keys_nodup (rows : list Row) :
  NoDup (nonempty_keys bib_key (dedupe_rows rows))
  /\ NoDup (nonempty_keys doi_key (dedupe_rows rows)).
Proof.
  induction rows as [|r pre [IHb IHd]] using rev_ind; [split; constructor|].
  rewrite dedupe_rows_snoc. destruct (clashes (dedupe_rows pre) r) eqn:Hc; [done|].
  assert (Hno : ~ ((Py.truthy (bib_key r) = true /\ exists k, k ∈ dedupe_rows pre /\ bib_key k = bib_key r)
                   \/ (Py.truthy (doi_key r) = true /\ exists k, k ∈ dedupe_rows pre /\ doi_key k = doi_key r))).
  { rewrite <- clashes_iff. by rewrite Hc. }
  rewrite !nonempty_keys_app. split; apply NoDup_app; (split; [done|]); split.
  - intros x Hx Hx'. unfold nonempty_keys in Hx'. cbn in Hx'.
    destruct (Py.truthy (bib_key r)) eqn:Ht; [|by apply elem_of_nil in Hx'].
    apply list_elem_of_singleton in Hx' as ->.
    apply elem_of_nonempty_keys in Hx as [_ Hk]. apply Hno. left. eauto.
  - unfold nonempty_keys. cbn. destruct (Py.truthy (bib_key r)); [apply NoDup_singleton | constructor].
  - intros x Hx Hx'. unfold nonempty_keys in Hx'. cbn in Hx'.
    destruct (Py.truthy (doi_key r)) eqn:Ht; [|by apply elem_of_nil in Hx'].
    apply list_elem_of_singleton in Hx' as ->.
    apply elem_of_nonempty_keys in Hx as [_ Hk]. apply Hno. right. eauto.
  - unfold nonempty_keys. cbn. destruct (Py.truthy (doi_key r)); [apply NoDup_singleton | constructor].
Qed.

Lemma keyless_never_clashes (kept : list Row) (r : Row) :
  keyless r = true -> clashes kept r = false.
Proof.
  unfold keyless. intros [Hb Hd]%andb_true_iff.
  apply negb_true_iff in Hb, Hd. apply not_true_is_false.
  rewrite clashes_iff. intros [[Ht _]|[Ht _]]; congruence.
Qed.

Lemma dedupe_rows_keeps_keyless (rows : list Row) :
  List.filter keyless (dedupe_rows rows) = List.filter keyless rows.
Proof.
  induction rows as [|r pre IH] using rev_ind; [done|].
  rewrite dedupe_rows_snoc, List.filter_app. cbn [List.filter].
  destruct (keyless r) eqn:Hk.
  - rewrite keyless_never_clashes by done. rewrite List.filter_app, IH. cbn. by rewrite Hk.
  - rewrite app_nil_r. destruct (clashes _ _); [done|].
    rewrite List.filter_app, IH. cbn. by rewrite Hk, app_nil_r.
Qed.

End DedupeClaims.

(** C10 (amended).  [dedupe_rows] keeps its rows in input order; it keeps
    a row exactly when no row kept before it has the same non-empty bibcode
    (trimmed) or the same non-empty DOI (trimmed, letter case ignored), so
    that no bibcode and no DOI occurs twice in the result; rows whose
    bibcode and DOI are both empty are all kept; and the function is
    idempotent. *)
Theorem dedupe_rows_properties (rows : list Discovery.Row) :
  Discovery.dedupe_rows rows `sublist_of` rows
  /\ (forall pre r,
        Discovery.dedupe_rows (pre ++ [r]) =
        if Discovery.clashes (Discovery.dedupe_rows pre) r
        then Discovery.dedupe_rows pre
        else Discovery.dedupe_rows pre ++ [r])
  /\ NoDup (Discovery.nonempty_keys Discovery.bib_key (Discovery.dedupe_rows rows))
  /\ NoDup (Discovery.nonempty_keys Discovery.doi_key (Discovery.dedupe_rows rows))
  /\ List.filter Discovery.keyless (Discovery.dedupe_rows rows)
     = List.filter Discovery.keyless rows
  /\ Discovery.dedupe_rows (Discovery.dedupe_rows rows) = Discovery.dedupe_rows rows.
Proof.
  split; [apply dedupe_rows_sublist|].
  split; [apply dedupe_rows_snoc|].
  split; [apply dedupe_rows_keys_nodup|].
  split; [apply dedupe_rows_keys_nodup|].
  split; [apply dedupe_rows_keeps_keyless | apply dedupe_rows_idem].
Qed.

(** C10 as stated fails: the first row that carries the second bibcode is
    dropped for its DOI, and the row kept for that bibcode is a later one. *)
Lemma dedupe_rows_drops_first_of_bibcode :
  List.find (fun r => bool_decide (Discovery.bib_key r = "1905AnP....17..891E"))
    [Scenario.hit1; Scenario.hit2; Scenario.hit3] = Some Scenario.hit2
  /\ Discovery.dedupe_rows [Scenario.hit1; Scenario.hit2; Scenario.hit3]
     = [Scenario.hit1; Scenario.hit3]
  /\ ~ In Scenario.hit2
       (Discovery.dedupe_rows [Scenario.hit1; Scenario.hit2; Scenario.hit3]).
Proof.
  split; [reflexivity|]. split; [by vm_compute|].
  vm_compute. intros [H|[H|[]]]; discriminate.
Qed.

(** * Further properties of the two programs *)

(** ** Pure helpers of the preserver *)
Section HelperFacts.
Import Preserver.

Lemma substring_trans (a b c : string) :
  Py.is_substring a b -> Py.is_substring b c -> Py.is_substring a c.
Proof.
  intros (p & q & ->) (p' & q' & ->). exists (p' +:+ p), (q +:+ q').
  by rewrite !app_assoc_str.
Qed.

(** X1.  [guess_pdf] answers [true] exactly when the letters ["pdf"] occur
    somewhere in the URL, letter case ignored: the tests for a [".pdf"]
    ending and for ["format=pdf"] add nothing. *)
Theorem guess_pdf_iff (url : string) :
  guess_pdf url = true <-> Py.is_substring "pdf" (Py.lower url).
Proof.
  unfold guess_pdf. cbn zeta. rewrite !orb_true_iff, endswith_iff, !contains_iff.
  split; [|by auto].
  intros [[Hsuf | Hsub] | Hfmt]; [|done|].
  - apply suffix_is_substring in Hsuf.
    apply (substring_trans _ ".pdf"); [|done]. by exists ".", "".
  - apply (substring_trans _ "format=pdf"); [|done]. by exists "format=", "".
Qed.

(** X2.  The integer part of the back-off delay, for the attempt numbers
    the retry loop produces: it is between 1 and 60 seconds, doubles from
    1 to 32 over attempts 0 to 5, is 60 from attempt 6 on, and never
    decreases with the attempt number. *)
Theorem backoff_base_bounds (attempt : Z) :
  0 <= attempt ->
  1 <= backoff_base attempt <= 60
  /\ (attempt <= 5 -> backoff_base attempt = 2 ^ attempt)
  /\ (6 <= attempt -> backoff_base attempt = 60)
  /\ (forall later, attempt <= later -> backoff_base attempt <= backoff_base later).
Proof.
  intros Hpos. unfold backoff_base.
  assert (Hone : 1 <= 2 ^ attempt) by (apply (Z.pow_le_mono_r 2 0 attempt); lia).
  repeat split; try lia.
  - intros Hle. assert (2 ^ attempt <= 2 ^ 5) by (apply Z.pow_le_mono_r; lia).
    change (2 ^ 5) with 32 in *. lia.
  - intros Hge. assert (2 ^ 6 <= 2 ^ attempt) by (apply Z.pow_le_mono_r; lia).
    change (2 ^ 6) with 64 in *. lia.
  - intros later Hlater.
    assert (2 ^ attempt <= 2 ^ later) by (apply Z.pow_le_mono_r; lia). lia.
Qed.

Lemma backoff_base_bounds_witness :
  1 <= backoff_base 3 <= 60 /\ backoff_base 3 = 8 /\ backoff_base 3 <= backoff_base 9.
Proof.
  destruct (backoff_base_bounds 3 ltac:(lia)) as (Hb & Hpow & _ & Hmono).
  exact (conj Hb (conj (Hpow ltac:(lia)) (Hmono 9 ltac:(lia)))).
Defined.

End HelperFacts.

Section SlugFacts.
Import Preserver Effects.

Lemma all_chars_remove_chars (p : ascii -> bool) (s : string) :
  Py.all_chars p (Py.remove_chars (fun c => negb (p c)) s) = true.
Proof.
  induction s as [|c s IH]; [done|]. cbn [Py.remove_chars].
  destruct (p c) eqn:Hc; cbn; [by rewrite Hc | done].
Qed.

Lemma all_chars_lstrip_by (p q : ascii -> bool) (s : string) :
  Py.all_chars p s = true -> Py.all_chars p (Py.lstrip_by q s) = true.
Proof.
  induction s as [|c s IH]; [done|]. cbn [Py.all_chars Py.lstrip_by].
  intros [Hc Hs]%andb_true_iff. destruct (q c); [by apply IH|].
  cbn. by rewrite Hc, Hs.
Qed.

Lemma all_chars_rstrip_by (p q : ascii -> bool) (s : string) :
  Py.all_chars p s = true -> Py.all_chars p (Py.rstrip_by q s) = true.
Proof.
  induction s as [|c s IH]; [done|]. cbn [Py.all_chars Py.rstrip_by].
  intros [Hc Hs]%andb_true_iff. specialize (IH Hs).
  destruct (Py.rstrip_by q s) as [|d t].
  - destruct (q c); cbn; [done | by rewrite Hc].
  - cbn [Py.all_chars] in *. by rewrite Hc, IH.
Qed.

Lemma all_chars_strip_by (p q : ascii -> bool) (s : string) :
  Py.all_chars p s = true -> Py.all_chars p (Py.strip_by q s) = true.
Proof. intros H. by apply all_chars_rstrip_by, all_chars_lstrip_by. Qed.

Lemma all_chars_squeeze_spaces (s : string) :
  forall in_run, Py.all_chars slug_keep s = true ->
                 Py.all_chars slug_char (squeeze_spaces in_run s) = true.
Proof.
  induction s as [|c s IH]; intros in_run; [done|].
  cbn [Py.all_chars squeeze_spaces]. intros [Hc Hs]%andb_true_iff.
  destruct (Py.is_space c) eqn:Hsp.
  - destruct in_run; [by apply IH|]. cbn [Py.all_chars]. by rewrite IH.
  - cbn [Py.all_chars]. unfold slug_char at 1. by rewrite Hc, Hsp, IH.
Qed.

Lemma all_chars_take_chars (p : ascii -> bool) (n : nat) :
  forall s, Py.all_chars p s = true -> Py.all_chars p (take_chars n s) = true.
Proof.
  induction n as [|n IH]; intros [|c s]; try done.
  cbn [Py.all_chars take_chars]. intros [Hc Hs]%andb_true_iff. by rewrite Hc, IH.
Qed.

Lemma length_take_chars (n : nat) :
  forall s, (String.length (take_chars n s) <= n)%nat.
Proof.
  induction n as [|n IH]; intros [|c s]; cbn; try lia. specialize (IH s). lia.
Qed.

Lemma slug_char_not_slash (s : string) :
  Py.all_chars slug_char s = true ->
  Py.any_char (Ascii.eqb "/") s = false /\ Py.any_char Py.is_space s = false.
Proof.
  induction s as [|c s IH]; [done|]. cbn [Py.all_chars Py.any_char].
  intros [Hc Hs]%andb_true_iff. destruct (IH Hs) as [-> ->].
  rewrite !orb_false_r. revert Hc.
  destruct c as [[] [] [] [] [] [] [] []]; cbn; intros Hc; try discriminate Hc; done.
Qed.

(** X3.  A slug is never empty, has at most 140 characters, and is made
    of letters, digits, underscores, hyphens, dots and characters above
    the ASCII range only; in particular it holds no path separator and
    no white space, whatever the title. *)
Theorem safe_slug_shape (title : string) :
  Py.truthy (safe_slug title) = true
  /\ (String.length (safe_slug title) <= 140)%nat
  /\ Py.all_chars slug_char (safe_slug title) = true
  /\ Py.any_char (Ascii.eqb "/") (safe_slug title) = false
  /\ Py.any_char Py.is_space (safe_slug title) = false.
Proof.
  assert (Hshape : Py.truthy (safe_slug title) = true
                   /\ (String.length (safe_slug title) <= 140)%nat
                   /\ Py.all_chars slug_char (safe_slug title) = true).
  { unfold safe_slug. cbn zeta.
    set (s := take_chars 140 _).
    assert (Hlen : (String.length s <= 140)%nat) by apply length_take_chars.
    assert (Hall : Py.all_chars slug_char s = true).
    { apply all_chars_take_chars, all_chars_squeeze_spaces, all_chars_strip_by.
      apply (all_chars_remove_chars slug_keep). }
    destruct (Py.truthy s) eqn:Ht; [done|].
    split; [done|]. split; [cbn; lia | done]. }
  destruct Hshape as (Ht & Hlen & Hall).
  destruct (slug_char_not_slash _ Hall) as [Hslash Hspace]. done.
Qed.

(** X4.  The trusted hosts of a run are the [--trust-host] values and the
    five built-in hosts, each once; a built-in host, and any host that
    ends in one, is trusted whatever the command line says. *)
Theorem trusted_hosts_defaults (args : Args) :
  (forall h, h ∈ trusted_hosts args <-> h ∈ trust_host args \/ h ∈ DEFAULT_TRUSTED)
  /\ NoDup (trusted_hosts args)
  /\ (forall h sub, h ∈ DEFAULT_TRUSTED ->
        host_matches (trusted_hosts args) (sub +:+ h) = true).
Proof.
  assert (Hmem : forall h, h ∈ trusted_hosts args <->
                           h ∈ trust_host args \/ h ∈ DEFAULT_TRUSTED).
  { intros h. unfold trusted_hosts.
    by rewrite elem_of_elements, elem_of_union, !elem_of_list_to_set. }
  split; [exact Hmem|]. split; [unfold trusted_hosts; apply NoDup_elements|].
  intros h sub Hh. apply host_matches_iff. exists h. split.
  - apply Hmem. by right.
  - left. by exists sub.
Qed.

End SlugFacts.

(** ** What the resolver emits *)
Section ResolverFacts.
Import Preserver.
Variable env : Env.

Lemma legacy_link_primary (lib : UrlLib.Checks) (bibcode : string) :
  is_primary_url lib ("http://adsabs.harvard.edu/pdf/" +:+ bibcode) = true.
Proof.
  change ("http://adsabs.harvard.edu/pdf/" +:+ bibcode)
    with ("http://" +:+ "adsabs.harvard.edu" +:+ String "/" ("pdf/" +:+ bibcode)).
  unfold is_primary_url. rewrite urlparse_netloc_http; [done..|]. right. by eexists.
Qed.

Lemma gateway_link_primary (lib : UrlLib.Checks) (bibcode : string) :
  is_primary_url lib
    ("https://ui.adsabs.harvard.edu/link_gateway/" +:+ bibcode +:+ "/PUB_PDF") = true.
Proof.
  change ("https://ui.adsabs.harvard.edu/link_gateway/" +:+ bibcode +:+ "/PUB_PDF")
    with ("https://" +:+ "ui.adsabs.harvard.edu"
            +:+ String "/" ("link_gateway/" +:+ bibcode +:+ "/PUB_PDF")).
  unfold is_primary_url. rewrite urlparse_netloc_https; [done..|]. right. by eexists.
Qed.

Lemma keep_primary_Forall (l : list string) :
  Forall (fun u => Py.truthy u = true /\ is_primary_url (urllib env) u = true)
    (keep_primary env l).
Proof.
  unfold keep_primary. apply List.Forall_forall. intros u [_ Hu]%List.filter_In.
  by apply andb_true_iff in Hu.
Qed.

Lemma resolve_candidates_with_bibcode (rec : Rec) :
  Py.truthy (Py.strip (rec_bibcode rec)) = true ->
  (resolve_candidates env rec).1.2 <> [].
Proof.
  intros Hbib. unfold resolve_candidates. cbn zeta. cbn [fst snd]. rewrite Hbib.
  match goal with |- context [keep_primary env ?l] => set (pre := l) end.
  destruct (keep_primary env pre) as [|u kept]; [|done].
  rewrite legacy_link_primary. done.
Qed.

(** X5.  Every URL in a resolved candidate list is non-empty and passes
    the host check, whatever the identifier redirect, the open-access
    lookup and the hint delivered. *)
Theorem resolve_candidates_whitelisted (rec : Rec) :
  Forall (fun u => Py.truthy u = true /\ is_primary_url (urllib env) u = true)
    (resolve_candidates env rec).1.2.
Proof.
  unfold resolve_candidates. cbn zeta. cbn [fst snd].
  match goal with |- context [keep_primary env ?l] => set (pre := l) end.
  pose proof (keep_primary_Forall pre) as Hkept.
  destruct (keep_primary env pre) as [|u kept]; [|done].
  destruct (Py.truthy (Py.strip (rec_bibcode rec))); [|done].
  rewrite legacy_link_primary. cbn [app]. constructor; [|done].
  split; [done | apply legacy_link_primary].
Qed.

(** X6.  A record with a secondary identifier (bibcode) always has at
    least one candidate, so it never ends as ["no_primary_candidate"]:
    with the index token set the link-gateway URL is a candidate, and when
    nothing else is left the legacy direct link is the only one. *)
Theorem bibcode_always_has_candidate (rec : Rec) :
  let bibcode := Py.strip (rec_bibcode rec) in
  Py.truthy bibcode = true ->
  (resolve_candidates env rec).1.2 <> []
  /\ (Py.truthy (Py.strip (ADS_TOKEN env)) = true ->
      ("https://ui.adsabs.harvard.edu/link_gateway/" +:+ bibcode +:+ "/PUB_PDF")
        ∈ (resolve_candidates env rec).1.2)
  /\ (Py.truthy (Py.strip (ADS_TOKEN env)) = false ->
      Py.strip (rec_doi rec) = "" ->
      Py.strip (rec_url_hint rec) = "" ->
      (resolve_candidates env rec).1.2 = ["http://adsabs.harvard.edu/pdf/" +:+ bibcode]).
Proof.
  intros bibcode Hbib. split; [|split].
  - by apply resolve_candidates_with_bibcode.
  - intros Htok. unfold resolve_candidates. cbn zeta. cbn [fst snd]. fold bibcode.
    rewrite Hbib. unfold try_ads_pdf. fold bibcode. rewrite Htok, Hbib. cbn [negb orb].
    set (link := "https://ui.adsabs.harvard.edu/link_gateway/" +:+ bibcode +:+ "/PUB_PDF").
    match goal with |- context [keep_primary env ?l] => set (pre := l) end.
    assert (Hin : link ∈ keep_primary env pre).
    { unfold keep_primary. apply list_elem_of_In, List.filter_In. split.
      - apply list_elem_of_In. subst pre.
        assert (Hlink : Py.truthy link = true) by done.
        destruct (Py.truthy (Py.strip (rec_url_hint rec)));
          cbn [append_if]; rewrite Hlink; set_solver.
      - apply andb_true_iff. split; [done | apply gateway_link_primary]. }
    destruct (keep_primary env pre) as [|u kept]; [|done].
    by apply elem_of_nil in Hin.
  - intros Htok Hdoi Hhint. unfold resolve_candidates. cbn zeta. cbn [fst snd]. fold bibcode.
    rewrite Hdoi, Hhint, Hbib. unfold try_ads_pdf. fold bibcode. rewrite Htok.
    cbn. by rewrite legacy_link_primary.
Qed.

End ResolverFacts.

(** C8, evaluated.  A row of a CSV file whose identifier, secondary
    identifier and hint cells are empty reaches the resolver with the text
    ["nan"] in the three fields, so its candidate list is never empty,
    whatever the surroundings.  Where nothing resolves and every GET is
    answered with an error page, the one candidate is the legacy link for
    the bibcode ["nan"]: it is requested, the reply is written to disk and
    quarantined, and the entry is a quarantine entry with [chosen_url] and
    [saved_as] set, not a ["no_primary_candidate"] entry.  The same item
    read from a JSONL line without the three keys gets the entry the claim
    describes, and nothing happens. *)
Theorem empty_cells_are_fetched :
  (forall env title year,
      (Preserver.resolve_candidates env
         (Preserver.rec_of_item
            {| Preserver.item_title := title; Preserver.item_year := year;
               Preserver.item_doi := Preserver.EmptyCell;
               Preserver.item_bibcode := Preserver.EmptyCell;
               Preserver.item_url_hint := Preserver.EmptyCell |})).1.2 <> [])
  /\ Preserver.resolve_candidates Scenario.not_found
       (Preserver.rec_of_item Scenario.csv_row_title_only)
     = (("Zur Elektrodynamik bewegter Koerper", "1905",
         ["http://adsabs.harvard.edu/pdf/nan"]),
        [Preserver.EvLookup "https://doi.org/nan"])
  /\ Preserver.fetch_one Scenario.not_found Scenario.default_args
       (Preserver.rec_of_item Scenario.csv_row_title_only) Scenario.empty_world
     = ({| Preserver.title := "Zur Elektrodynamik bewegter Koerper";
           Preserver.year := "1905";
           Preserver.chosen_url := Some "http://adsabs.harvard.edu/pdf/nan";
           Preserver.saved_as :=
             Some "einstein_primary/quarantine/1905_Zur_Elektrodynamik_bewegter_Koerper.pdf";
           Preserver.sha256 := None;
           Preserver.validated := false;
           Preserver.has_einstein := false;
           Preserver.has_venue := false;
           Preserver.page_sane := false;
           Preserver.note := "quarantined_failed_validation";
           Preserver.text_len := 0;
           Preserver.pages := 0;
           Preserver.host := "";
           Preserver.valid_primary := Some false |},
        {| Preserver.w_gets := 1; Preserver.w_draws := 0;
           Preserver.w_fs :=
             {[ "einstein_primary/quarantine/1905_Zur_Elektrodynamik_bewegter_Koerper.pdf"
                := Scenario.error_page ]};
           Preserver.w_trace :=
             [ Preserver.EvLookup "https://doi.org/nan";
               Preserver.EvGet "http://adsabs.harvard.edu/pdf/nan";
               Preserver.EvWrite
                 "einstein_primary/1905_Zur_Elektrodynamik_bewegter_Koerper.pdf";
               Preserver.EvMove
                 "einstein_primary/1905_Zur_Elektrodynamik_bewegter_Koerper.pdf"
                 "einstein_primary/quarantine/1905_Zur_Elektrodynamik_bewegter_Koerper.pdf"
             ] |})
  /\ Preserver.fetch_one Scenario.not_found Scenario.default_args
       (Preserver.rec_of_item Scenario.jsonl_line_title_only) Scenario.empty_world
     = (Preserver.set_note
          (Preserver.initial_status "Zur Elektrodynamik bewegter Koerper" "1905")
          "no_primary_candidate",
        Scenario.empty_world).
Proof.
  split.
  - intros env title year. by apply resolve_candidates_with_bibcode.
  - repeat split; vm_compute; reflexivity.
Qed.

Lemma bibcode_always_has_candidate_witness :
  (Preserver.resolve_candidates Scenario.landing_then_article Scenario.electrodynamics_ads).1.2
    <> []
  /\ Scenario.gateway_url
       ∈ (Preserver.resolve_candidates Scenario.landing_then_article
            Scenario.electrodynamics_ads).1.2.
Proof.
  destruct (bibcode_always_has_candidate Scenario.landing_then_article
              Scenario.electrodynamics_ads eq_refl) as (Hne & Hgate & _).
  exact (conj Hne (Hgate eq_refl)).
Defined.

(** ** What the validator accepts *)
Section ValidatorFacts.
Import Preserver.

Lemma host_matches_mono (hosts hosts' : list string) (host : string) :
  (forall h, h ∈ hosts -> h ∈ hosts') ->
  host_matches hosts host = true -> host_matches hosts' host = true.
Proof.
  intros Hincl. rewrite !host_matches_iff. intros (h & Hin & Hm). exists h. auto.
Qed.



(** X8.  Acceptance only grows with the relaxations: a result accepted
    with some trusted hosts, book flag and scan-only switch stays accepted
    with more trusted hosts, the book flag set, or the switch turned on. *)
Theorem validate_pdf_monotone (lib : UrlLib.Checks) (fs : gmap string File)
    (path : string) (source_url : option string)
    (accept accept' : bool) (trusted trusted' : list string) (book book' : bool) :
  (forall h, h ∈ trusted -> h ∈ trusted') ->
  (accept = true -> accept' = true) ->
  (book = true -> book' = true) ->
  c_valid_primary (validate_pdf lib fs path source_url accept trusted book) = true ->
  c_valid_primary (validate_pdf lib fs path source_url accept' trusted' book') = true.
Proof.
  intros Hincl Hacc Hbook. unfold validate_pdf.
  destruct (fs !! path ≫= file_pdf) as [pdf|]; [|done].
  destruct (source_netloc lib source_url) as [netloc|]; [|done].
  cbn zeta. cbn [c_valid_primary].
  set (scan := (_ <? 100) && _).
  set (kw := Py.contains "einstein" _).
  set (sane := (1 <=? pdf_pages pdf) && (pdf_pages pdf <=? 200)).
  assert (Hbase : kw && (sane || book && (50 <? pdf_pages pdf)) = true ->
                  kw && (sane || book' && (50 <? pdf_pages pdf)) = true).
  { destruct kw, sane, book; cbn; try done. rewrite Hbook by done. done. }
  destruct (accept && host_matches trusted (Py.lower netloc)) eqn:Hrelax.
  - apply andb_true_iff in Hrelax as [Ha Htrust].
    rewrite (Hacc Ha), (host_matches_mono _ _ _ Hincl Htrust). cbn [andb].
    destruct scan; [done | exact Hbase].
  - intros Hvalid. apply Hbase in Hvalid. rewrite Hvalid.
    by repeat case_match.
Qed.

Lemma validate_pdf_monotone_witness :
  c_valid_primary
    (validate_pdf Scenario.lib_ok Scenario.disk_article "paper.pdf"
       (Some "https://archive.org/x.pdf") true ["archive.org"; "example.org"] true) = true.
Proof.
  apply (validate_pdf_monotone Scenario.lib_ok Scenario.disk_article "paper.pdf"
           (Some "https://archive.org/x.pdf") false true
           ["archive.org"] ["archive.org"; "example.org"] false true).
  - intros h Hh. apply elem_of_cons. by left; apply list_elem_of_singleton in Hh.
  - discriminate.
  - discriminate.
  - reflexivity.
Defined.

End ValidatorFacts.

(** ** What a record's processing does to the network and the disk *)
Section FetchFacts.
Import Preserver Effects.
Variable env : Env.
Variable args : Args.

Lemma get_urls_app (evs1 evs2 : list Event) :
  get_urls (evs1 ++ evs2) = get_urls evs1 ++ get_urls evs2.
Proof. unfold get_urls. apply omap_app. Qed.

Lemma lookup_urls_app (evs1 evs2 : list Event) :
  lookup_urls (evs1 ++ evs2) = lookup_urls evs1 ++ lookup_urls evs2.
Proof. unfold lookup_urls. apply omap_app. Qed.



Lemma gets_bounded_quiet (allowed : list string) (k : nat) (w w1 w2 : World) (e : Event) :
  w_trace w2 = w_trace w1 ++ [e] ->
  get_urls [e] = [] ->
  lookup_urls [e] = [] ->
  gets_bounded allowed k w w1 -> gets_bounded allowed k w w2.
Proof.
  intros Hw2 He Hl (evs & Htr & Hall & Hlen & Hlk). exists (evs ++ [e]).
  rewrite Hw2, Htr, <- app_assoc, get_urls_app, lookup_urls_app, He, Hl, Hlk, app_nil_r.
  done.
Qed.


Lemma gets_bounded_backoff_sleep (allowed : list string) (k : nat) (w w1 : World) (a : Z) :
  gets_bounded allowed k w w1 -> gets_bounded allowed k w (backoff_sleep env a w1).
Proof. intros H. by eapply gets_bounded_quiet; [reflexivity | reflexivity | reflexivity |]. Qed.

Lemma gets_bounded_write_file (allowed : list string) (k : nat) (w w1 : World)
    (path : string) (f : File) :
  gets_bounded allowed k w w1 -> gets_bounded allowed k w (write_file path f w1).
Proof. intros H. by eapply gets_bounded_quiet; [reflexivity | reflexivity | reflexivity |]. Qed.

Lemma gets_bounded_move_file (allowed : list string) (k : nat) (w w1 : World)
    (src dst : string) :
  gets_bounded allowed k w w1 -> gets_bounded allowed k w (move_file src dst w1).
Proof. intros H. by eapply gets_bounded_quiet; [reflexivity | reflexivity | reflexivity |]. Qed.

Lemma gets_bounded_html_to_pdf (allowed : list string) (k : nat) (w w1 w2 : World)
    (u out_pdf : string) (ok : bool) :
  html_to_pdf env u out_pdf w1 = (ok, w2) ->
  gets_bounded allowed k w w1 -> gets_bounded allowed k w w2.
Proof.
  unfold html_to_pdf, engine_wrote. intros Heq H.
  assert (Hlog : gets_bounded allowed k w (log (EvRender u) w1))
    by (by eapply gets_bounded_quiet; [reflexivity | reflexivity | reflexivity |]).
  repeat case_match; simplify_eq; auto using gets_bounded_write_file.
Qed.

Lemma gets_bounded_browser_fetch_pdf (allowed : list string) (k : nat) (w w1 w2 : World)
    (u out_pdf : string) (ok : bool) :
  browser_fetch_pdf env u out_pdf w1 = (ok, w2) ->
  gets_bounded allowed k w w1 -> gets_bounded allowed k w w2.
Proof.
  unfold browser_fetch_pdf, engine_wrote. intros Heq H.
  assert (Hlog : gets_bounded allowed k w (log (EvBrowser u) w1))
    by (by eapply gets_bounded_quiet; [reflexivity | reflexivity | reflexivity |]).
  repeat case_match; simplify_eq; auto using gets_bounded_write_file.
Qed.

Create HintDb fetch_gets.

#[local] Hint Resolve gets_bounded_backoff_sleep gets_bounded_write_file
  gets_bounded_move_file gets_bounded_html_to_pdf gets_bounded_browser_fetch_pdf
  : fetch_gets.

















Lemma sha256_file_Some (fs : gmap string File) (path h : string) :
  sha256_file fs path = Some h -> exists f, fs !! path = Some f /\ file_digest f = h.
Proof. unfold sha256_file. intros (f & Hf & ->)%fmap_Some. eauto. Qed.

Lemma attempt_body_digest (out_pdf qdir url : string)
    (again : Status -> World -> Flow * World) (attempt : Z) (st : Status) (w : World) :
  sha256 st = None ->
  (forall st1 w1, sha256 st1 = None -> flow_digest_on_disk out_pdf (again st1 w1)) ->
  flow_digest_on_disk out_pdf (attempt_body env args out_pdf qdir url again attempt st w).
Proof.
  intros Hst Hagain. unfold attempt_body. cbn zeta.
  repeat case_match; subst; unfold flow_digest_on_disk in *; cbn [fst snd];
    first [ solve [apply Hagain; done]
          | solve [done]
          | solve [intros h' Hh'; cbn in Hh'; congruence]
          | solve [intros h' Hh'; cbn in Hh'; simplify_eq; split; [done|];
                   by apply sha256_file_Some] ].
Qed.

Lemma retry_loop_digest (out_pdf qdir url : string) (n : nat) :
  forall (attempt : Z) (st : Status) (w : World),
    sha256 st = None ->
    flow_digest_on_disk out_pdf (retry_loop env args out_pdf qdir url n attempt st w).
Proof.
  induction n as [|n IH]; intros attempt st w Hst; cbn [retry_loop].
  - exact Hst.
  - apply attempt_body_digest; [done|]. intros st1 w1 Hst1. by apply IH.
Qed.

Lemma candidates_loop_digest (out_pdf qdir : string) (cands : list string) :
  forall (st : Status) (w : World),
    sha256 st = None ->
    digest_on_disk out_pdf
      (candidates_loop env args out_pdf qdir cands st w).1
      (candidates_loop env args out_pdf qdir cands st w).2.
Proof.
  induction cands as [|u rest IH]; intros st w Hst; cbn [candidates_loop].
  - intros h Hh. cbn in Hh. congruence.
  - destruct (is_licensed u && negb (allow_licensed args)); [by apply IH|].
    pose proof (retry_loop_digest out_pdf qdir u (Z.to_nat (retries args)) 0
                  (set_chosen_url st u) w Hst) as Hflow.
    destruct (retry_loop env args out_pdf qdir u _ 0 _ w) as [[st'|st'] w'];
      unfold flow_digest_on_disk in Hflow; cbn [fst snd] in *.
    + exact Hflow.
    + by apply IH.
Qed.

(** X11.  Whenever an entry carries a digest, its [saved_as] is the
    record's output path, the file is there at the end of processing, and
    the digest is that file's digest. *)
Theorem fetch_one_digest_on_disk (rec : Rec) (w : World) (h : string) :
  let out_pdf := out_pdf_of args (Py.strip (rec_title rec)) (Py.strip (rec_year rec)) in
  sha256 (fetch_one env args rec w).1 = Some h ->
  saved_as (fetch_one env args rec w).1 = Some out_pdf
  /\ exists f, w_fs (fetch_one env args rec w).2 !! out_pdf = Some f
               /\ file_digest f = h.
Proof.
  intros out_pdf. rewrite fetch_one_unfold. unfold fetch_candidates.
  destruct (resolve_candidates env rec).1.2 as [|u cands]; [done|].
  apply (candidates_loop_digest out_pdf (quarantine_dir_of args) (u :: cands)). done.
Qed.

Lemma move_after_write (src dst : string) (f : File) (w : World) :
  w_fs (move_file src dst (write_file src f w)) !! dst = Some f
  /\ (dst <> src -> w_fs (move_file src dst (write_file src f w)) !! src = None).
Proof.
  cbn [move_file write_file w_fs]. rewrite lookup_insert_eq. split.
  - apply lookup_insert_eq.
  - intros Hne. rewrite lookup_insert_ne by done. apply lookup_delete_eq.
Qed.

Lemma error_note_in_progress (st : Status) (msg : string) :
  in_progress st -> in_progress (set_note st ("error:" +:+ msg)).
Proof. intros [Hs _]. split; [done|]. cbn. intros H. discriminate H. Qed.

Lemma ctype_note_in_progress (st : Status) (ctype : string) :
  in_progress st -> in_progress (set_note st ("unsupported_ctype:" +:+ ctype)).
Proof. intros [Hs _]. split; [done|]. cbn. intros H. discriminate H. Qed.

Lemma html_note_in_progress (st : Status) :
  in_progress st -> in_progress (set_note st "html_no_primary_pdf").
Proof. intros [Hs _]. split; [done|]. cbn. intros H. discriminate H. Qed.

Lemma attempt_body_quarantine_disk (out_pdf qdir url : string)
    (again : Status -> World -> Flow * World) (attempt : Z) (st : Status) (w : World) :
  in_progress st ->
  (forall st1 w1, in_progress st1 ->
     flow_quarantine_on_disk out_pdf (path_join qdir (basename out_pdf)) (again st1 w1)) ->
  flow_quarantine_on_disk out_pdf (path_join qdir (basename out_pdf))
    (attempt_body env args out_pdf qdir url again attempt st w).
Proof.
  intros Hst Hagain. pose proof Hst as [Hsha Hnote].
  unfold attempt_body. cbn zeta.
  repeat case_match; subst; unfold flow_quarantine_on_disk in *; cbn [fst snd];
    first [ solve [apply Hagain;
                   auto using error_note_in_progress, ctype_note_in_progress,
                              html_note_in_progress]
          | solve [auto using error_note_in_progress, ctype_note_in_progress,
                              html_note_in_progress]
          | solve [intros Hq; cbn in Hq; done]
          | idtac ].
  intros _. cbn [saved_as sha256 valid_primary update_saved_noted].
  destruct (move_after_write out_pdf (path_join qdir (basename out_pdf)) f (do_get url w))
    as [Hq Hout].
  repeat split; [done | by f_equal | by rewrite Hq | exact Hout].
Qed.

Lemma retry_loop_quarantine_disk (out_pdf qdir url : string) (n : nat) :
  forall (attempt : Z) (st : Status) (w : World),
    in_progress st ->
    flow_quarantine_on_disk out_pdf (path_join qdir (basename out_pdf))
      (retry_loop env args out_pdf qdir url n attempt st w).
Proof.
  induction n as [|n IH]; intros attempt st w Hst; cbn [retry_loop].
  - exact Hst.
  - apply attempt_body_quarantine_disk; [done|]. intros st1 w1 Hst1. by apply IH.
Qed.

Lemma candidates_loop_quarantine_disk (out_pdf qdir : string) (cands : list string) :
  forall (st : Status) (w : World),
    in_progress st ->
    quarantine_on_disk out_pdf (path_join qdir (basename out_pdf))
      (candidates_loop env args out_pdf qdir cands st w).1
      (candidates_loop env args out_pdf qdir cands st w).2.
Proof.
  induction cands as [|u rest IH]; intros st w Hst; cbn [candidates_loop].
  - intros Hq. cbn in Hq. by destruct Hst.
  - destruct (is_licensed u && negb (allow_licensed args)); [by apply IH|].
    pose proof (retry_loop_quarantine_disk out_pdf qdir u (Z.to_nat (retries args)) 0
                  (set_chosen_url st u) w Hst) as Hflow.
    destruct (retry_loop env args out_pdf qdir u _ 0 _ w) as [[st'|st'] w'];
      unfold flow_quarantine_on_disk in Hflow; cbn [fst snd] in *.
    + exact Hflow.
    + by apply IH.
Qed.

(** X12.  An entry with note ["quarantined_failed_validation"] points at
    the quarantine copy: [saved_as] is the quarantine path, a file is
    there, the entry has no digest and is marked not valid; and unless
    the two paths coincide, nothing is left at the output path. *)
Theorem fetch_one_quarantine_on_disk (rec : Rec) (w : World) :
  let out_pdf := out_pdf_of args (Py.strip (rec_title rec)) (Py.strip (rec_year rec)) in
  let qpath := path_join (quarantine_dir_of args) (basename out_pdf) in
  note (fetch_one env args rec w).1 = "quarantined_failed_validation" ->
  saved_as (fetch_one env args rec w).1 = Some qpath
  /\ sha256 (fetch_one env args rec w).1 = None
  /\ valid_primary (fetch_one env args rec w).1 = Some false
  /\ is_Some (w_fs (fetch_one env args rec w).2 !! qpath)
  /\ (qpath <> out_pdf -> w_fs (fetch_one env args rec w).2 !! out_pdf = None).
Proof.
  intros out_pdf qpath. rewrite fetch_one_unfold. unfold fetch_candidates.
  destruct (resolve_candidates env rec).1.2 as [|u cands]; [done|].
  apply (candidates_loop_quarantine_disk out_pdf (quarantine_dir_of args) (u :: cands)).
  split; [done | discriminate].
Qed.

End FetchFacts.


Lemma fetch_one_digest_on_disk_witness :
  Preserver.saved_as
    (Preserver.fetch_one Scenario.landing_then_article Scenario.default_args
       (Scenario.hinted Scenario.archive_url) Scenario.empty_world).1
  = Some "einstein_primary/1905_Zur_Elektrodynamik_bewegter_Koerper.pdf"
  /\ exists f,
       Preserver.w_fs
         (Preserver.fetch_one Scenario.landing_then_article Scenario.default_args
            (Scenario.hinted Scenario.archive_url) Scenario.empty_world).2
         !! "einstein_primary/1905_Zur_Elektrodynamik_bewegter_Koerper.pdf" = Some f
       /\ Preserver.file_digest f = "5f2b0c".
Proof.
  exact (fetch_one_digest_on_disk Scenario.landing_then_article Scenario.default_args
           (Scenario.hinted Scenario.archive_url) Scenario.empty_world "5f2b0c" eq_refl).
Defined.

Lemma fetch_one_quarantine_on_disk_witness :
  Preserver.saved_as
    (Preserver.fetch_one Scenario.landing_then_article Scenario.default_args
       Scenario.electrodynamics_ads Scenario.empty_world).1
  = Some "einstein_primary/quarantine/1905_Zur_Elektrodynamik_bewegter_Koerper.pdf"
  /\ Preserver.sha256
       (Preserver.fetch_one Scenario.landing_then_article Scenario.default_args
          Scenario.electrodynamics_ads Scenario.empty_world).1 = None.
Proof.
  destruct (fetch_one_quarantine_on_disk Scenario.landing_then_article Scenario.default_args
              Scenario.electrodynamics_ads Scenario.empty_world eq_refl)
    as (Hs & Hh & _).
  exact (conj Hs Hh).
Defined.

(** ** The render bridge *)
Section RenderFacts.
Import Preserver.
Variable env : Env.

(** X13.  [html_to_pdf] and [browser_fetch_pdf] answer [True] only when a
    file of more than 500 bytes is at the output path afterwards; without
    an engine they answer [False] and leave the disk as it was; and when
    the print-to-PDF engine ran without raising, its file decides the
    answer and the browser engine is not consulted. *)
Theorem render_result (url out_pdf : string) (w : World) :
  ((html_to_pdf env url out_pdf w).1 = true ->
     exists f, w_fs (html_to_pdf env url out_pdf w).2 !! out_pdf = Some f
               /\ 500 < file_size f)
  /\ ((browser_fetch_pdf env url out_pdf w).1 = true ->
      exists f, w_fs (browser_fetch_pdf env url out_pdf w).2 !! out_pdf = Some f
                /\ 500 < file_size f)
  /\ (HAVE_PLAYWRIGHT env = false ->
      browser_fetch_pdf env url out_pdf w = (false, w)
      /\ (HAVE_PDFKIT env = false ->
          (html_to_pdf env url out_pdf w).1 = false
          /\ w_fs (html_to_pdf env url out_pdf w).2 = w_fs w))
  /\ (forall f, HAVE_PDFKIT env = true -> pdfkit_from_url env url = Some f ->
        (html_to_pdf env url out_pdf w).1 = (500 <? file_size f)
        /\ w_fs (html_to_pdf env url out_pdf w).2 !! out_pdf = Some f).
Proof.
  unfold html_to_pdf, browser_fetch_pdf, engine_wrote.
  split; [|split; [|split]].
  - repeat case_match; cbn [fst snd write_file log w_fs]; try done;
      intros Hbig; eexists; (split; [apply lookup_insert_eq | lia]).
  - repeat case_match; cbn [fst snd write_file log w_fs]; try done;
      intros Hbig; eexists; (split; [apply lookup_insert_eq | lia]).
  - intros Hpw. rewrite Hpw. cbn [negb]. split; [done|].
    intros Hkit. by rewrite Hkit.
  - intros f Hkit Hf. rewrite Hkit, Hf. cbn. split; [done | apply lookup_insert_eq].
Qed.

End RenderFacts.

Lemma render_result_witness :
  (Preserver.html_to_pdf Scenario.gutenberg_render Scenario.gutenberg_url "out.pdf"
     Scenario.empty_world).1 = true
  /\ Preserver.w_fs
       (Preserver.html_to_pdf Scenario.gutenberg_render Scenario.gutenberg_url "out.pdf"
          Scenario.empty_world).2 !! "out.pdf" = Some Scenario.rendered_page.
Proof.
  exact (proj2 (proj2 (proj2 (render_result Scenario.gutenberg_render
                                Scenario.gutenberg_url "out.pdf" Scenario.empty_world)))
           Scenario.rendered_page eq_refl eq_refl).
Defined.

(** ** Discovery tool: rows built from the query results *)
Section RowFacts.
Import Discovery Catalog.

Lemma or_untitled_truthy (s : string) : Py.truthy (or_untitled s) = true.
Proof. unfold or_untitled. by destruct s. Qed.

Lemma rstrip_by_app_kept (p : ascii -> bool) (s t : string) :
  Py.rstrip_by p t = t -> t <> "" -> Py.rstrip_by p (s +:+ t) = s +:+ t.
Proof.
  intros Ht Hne. induction s as [|c s IH]; [done|].
  rewrite app_cons. cbn [Py.rstrip_by]. rewrite IH.
  destruct (s +:+ t) eqn:Hst; [|done].
  by apply app_eq_empty in Hst as [_ ?].
Qed.

Lemma strip_gateway_link (bc : string) : Py.strip (gateway_link bc) = gateway_link bc.
Proof.
  unfold Py.strip, Py.strip_by, gateway_link.
  change (Py.lstrip_by Py.is_space
            ("https://ui.adsabs.harvard.edu/link_gateway/" +:+ bc +:+ "/PUB_PDF"))
    with ("https://ui.adsabs.harvard.edu/link_gateway/" +:+ bc +:+ "/PUB_PDF").
  apply rstrip_by_app_kept.
  - by apply rstrip_by_app_kept.
  - intros [_ H]%app_eq_empty. discriminate H.
Qed.

Lemma first_title_truthy (d : Doc) : Py.truthy (first_title d) = true.
Proof.
  unfold first_title. destruct (d_title d) as [| |[|x l]|s]; auto using or_untitled_truthy.
Qed.

(** X14.  [first_title] never returns an empty title: a missing, empty or
    [null] title, an empty list and a list that starts with [null] or
    with the empty string all give ["Untitled"], and a list that starts
    with a non-empty string gives that string. *)
Theorem first_title_never_empty (d : Doc) :
  Py.truthy (first_title d) = true
  /\ (forall s rest, d_title d = Items (Some s :: rest) -> Py.truthy s = true ->
        first_title d = s)
  /\ (d_title d = Missing \/ d_title d = Null \/ d_title d = Items []
      \/ (exists rest, d_title d = Items (None :: rest))
      \/ (exists rest, d_title d = Items (Some "" :: rest))
      \/ d_title d = Text "" ->
      first_title d = "Untitled").
Proof.
  unfold first_title. repeat split.
  - destruct (d_title d) as [| |[|x l]|s]; auto using or_untitled_truthy.
  - intros s rest -> Hs. unfold or_untitled. cbn. by rewrite Hs.
  - intros [-> | [-> | [-> | [[rest ->] | [[rest ->] | ->]]]]]; reflexivity.
Qed.

(** X15.  [to_rows] makes one row per document, in order, none when the
    reply has no documents; every row has a non-empty title and a bibcode
    (possibly empty), and its hinted URL is empty exactly when the bibcode
    is, and otherwise is the link-gateway URL, which passes the
    preserver's host check as it stands. *)
Theorem to_rows_shape (docs : option (list Doc)) :
  to_rows None = []
  /\ length (to_rows docs) = length (default [] docs)
  /\ (forall i d, default [] docs !! i = Some d -> to_rows docs !! i = Some (row_of d))
  /\ Forall (fun r =>
        Py.truthy (title r) = true
        /\ (exists bc, bibcode r = Some bc
              /\ (Py.truthy (url_hint r) = Py.truthy bc)
              /\ (Py.truthy bc = true -> url_hint r = gateway_link bc))
        /\ (Py.truthy (url_hint r) = true ->
            forall lib, Preserver.is_primary_url lib (Py.strip (url_hint r)) = true))
       (to_rows docs).
Proof.
  unfold to_rows. split; [done|]. split; [apply length_fmap|]. split.
  - intros i d Hd. by rewrite list_lookup_fmap, Hd.
  - apply Forall_fmap, Forall_forall. intros d _.
    unfold row_of. cbn [title bibcode url_hint compose].
    split; [apply first_title_truthy|]. split.
    + exists (Py.or_empty (d_bibcode d)). split; [done|].
      destruct (Py.truthy (Py.or_empty (d_bibcode d))) eqn:Hbc; [|done].
      split; [done | done].
    + destruct (Py.truthy (Py.or_empty (d_bibcode d))); [|done].
      intros _ lib. rewrite strip_gateway_link. apply gateway_link_primary.
Qed.

(** X16.  [get_token] prefers a non-empty [--token] to the environment
    and strips what it returns; it fails exactly when no token is given and
    the environment variable is unset or blank; and the token it returns
    is empty only for a [--token] made of white space. *)
Theorem get_token_cases (cmd_token : option string) (environ_token : string) :
  (forall t, cmd_token = Some t -> Py.truthy t = true ->
     get_token cmd_token environ_token = Some (Py.strip t))
  /\ (Py.truthy (Py.or_empty cmd_token) = false ->
      get_token cmd_token environ_token =
      if Py.truthy (Py.strip environ_token) then Some (Py.strip environ_token) else None)
  /\ (get_token cmd_token environ_token = None <->
      Py.truthy (Py.or_empty cmd_token) = false /\ Py.strip environ_token = "")
  /\ (get_token cmd_token environ_token = Some "" <->
      exists t, cmd_token = Some t /\ Py.truthy t = true /\ Py.strip t = "").
Proof.
  unfold get_token. repeat split.
  - intros t -> Ht. cbn. by rewrite Ht.
  - by intros ->.
  - destruct (Py.truthy (Py.or_empty cmd_token)); [done|].
    destruct (Py.strip environ_token); done.
  - destruct (Py.truthy (Py.or_empty cmd_token)); [done|].
    destruct (Py.strip environ_token); done.
  - intros [-> ->]. done.
  - destruct cmd_token as [t|]; cbn.
    + destruct (Py.truthy t) eqn:Ht.
      * intros [= Hs]. by exists t.
      * destruct (Py.strip environ_token); done.
    + destruct (Py.strip environ_token); done.
  - intros (t & -> & Ht & Hs). cbn [Py.or_empty]. by rewrite Ht, Hs.
Qed.

End RowFacts.

(** ** Discovery tool: years and titles *)
Section YearFacts.
Import Discovery Catalog.

Lemma digit_value_range (c : ascii) :
  Py.is_digit c = true -> 0 <= digit_value c <= 9.
Proof.
  unfold Py.is_digit, digit_value. cbn zeta.
  rewrite andb_true_iff, !N.leb_le. lia.
Qed.

Lemma digit_not_space (c : ascii) :
  Py.is_digit c = true ->
  int_space c = false /\ Ascii.eqb c "+" = false /\ Ascii.eqb c "-" = false
  /\ Ascii.eqb c "_" = false.
Proof. destruct c as [[] [] [] [] [] [] [] []]; cbn; intros H; try discriminate H; done. Qed.

Lemma parse_digits_range (s : string) :
  forall acc after v,
    0 <= acc ->
    parse_digits acc after s = Some v ->
    acc <= v < (acc + 1) * 10 ^ Z.of_nat (String.length s).
Proof.
  induction s as [|c s IH]; intros acc after v Hacc; cbn [parse_digits String.length].
  - destruct after; [|done]. intros [= <-]. cbn. lia.
  - rewrite Nat2Z.inj_succ, Z.pow_succ_r by lia.
    assert (Hpow : 0 < 10 ^ Z.of_nat (String.length s)) by (apply Z.pow_pos_nonneg; lia).
    destruct (Py.is_digit c) eqn:Hd.
    + pose proof (digit_value_range c Hd) as Hv. intros Hp.
      apply IH in Hp; [|lia]. nia.
    + destruct (Ascii.eqb c "_" && after); [|done]. intros Hp.
      apply IH in Hp; [|lia]. nia.
Qed.

Lemma length_lstrip_by (p : ascii -> bool) (s : string) :
  (String.length (Py.lstrip_by p s) <= String.length s)%nat.
Proof. induction s as [|c s IH]; cbn; [lia|]. destruct (p c); cbn; lia. Qed.

Lemma length_rstrip_by (p : ascii -> bool) (s : string) :
  (String.length (Py.rstrip_by p s) <= String.length s)%nat.
Proof.
  induction s as [|c s IH]; cbn; [lia|].
  destruct (Py.rstrip_by p s); [destruct (p c)|]; cbn in *; lia.
Qed.

Lemma length_strip_by (p : ascii -> bool) (s : string) :
  (String.length (Py.strip_by p s) <= String.length s)%nat.
Proof.
  unfold Py.strip_by. pose proof (length_rstrip_by p (Py.lstrip_by p s)).
  pose proof (length_lstrip_by p s). lia.
Qed.

Lemma py_int_range (s : string) (v : Z) :
  (String.length s <= 4)%nat -> py_int s = Some v -> -999 <= v <= 9999.
Proof.
  intros Hlen. unfold py_int.
  pose proof (length_strip_by int_space s) as Hstrip.
  destruct (Py.strip_by int_space s) as [|c digits]; [done|].
  cbn [String.length] in Hstrip.
  assert (Hsmall : forall t w, (String.length t <= 3)%nat ->
                     parse_digits 0 false t = Some w -> 0 <= w <= 999).
  { intros t w Ht Hp. apply parse_digits_range in Hp; [|lia].
    assert (10 ^ Z.of_nat (String.length t) <= 10 ^ 3) by (apply Z.pow_le_mono_r; lia).
    change (10 ^ 3) with 1000 in *. lia. }
  destruct (Ascii.eqb c "+").
  { intros Hp. apply Hsmall in Hp; lia. }
  destruct (Ascii.eqb c "-").
  { destruct (parse_digits 0 false digits) as [w|] eqn:Hp; [|done].
    intros [= <-]. apply Hsmall in Hp; lia. }
  intros Hp. apply parse_digits_range in Hp; [|lia].
  assert (10 ^ Z.of_nat (String.length (String c digits)) <= 10 ^ 4)
    by (apply Z.pow_le_mono_r; cbn [String.length]; lia).
  change (10 ^ 4) with 10000 in *. lia.
Qed.

Lemma take_chars_idem (n : nat) :
  forall s, Preserver.take_chars n (Preserver.take_chars n s) = Preserver.take_chars n s.
Proof. induction n as [|n IH]; intros [|c s]; cbn; try done. by rewrite IH. Qed.

(** X17.  [year_int] reads the first four characters only; it returns
    nothing or an integer from -999 to 9999; and on a text that starts
    with four decimal digits it returns the number they spell, whatever
    follows. *)
Theorem year_int_reads_four (y : string) :
  year_int y = year_int (Preserver.take_chars 4 y)
  /\ (forall v, year_int y = Some v -> -999 <= v <= 9999)
  /\ (forall c1 c2 c3 c4 rest,
        y = String c1 (String c2 (String c3 (String c4 rest))) ->
        Py.is_digit c1 = true -> Py.is_digit c2 = true ->
        Py.is_digit c3 = true -> Py.is_digit c4 = true ->
        year_int y = Some (1000 * digit_value c1 + 100 * digit_value c2
                           + 10 * digit_value c3 + digit_value c4)).
Proof.
  unfold year_int. split; [by rewrite take_chars_idem|]. split.
  - intros v. apply py_int_range, length_take_chars.
  - intros c1 c2 c3 c4 rest -> H1 H2 H3 H4.
    destruct (digit_not_space c1 H1) as (S1 & P1 & M1 & _).
    destruct (digit_not_space c2 H2) as (S2 & _).
    destruct (digit_not_space c3 H3) as (S3 & _).
    destruct (digit_not_space c4 H4) as (S4 & _).
    cbn [Preserver.take_chars]. unfold py_int, Py.strip_by.
    cbn [Py.lstrip_by]. rewrite S1. cbn [Py.rstrip_by]. rewrite S4.
    rewrite P1, M1. cbn [parse_digits]. rewrite H1, H2, H3, H4. f_equal. lia.
Qed.

End YearFacts.

Lemma year_int_reads_four_witness :
  Catalog.year_int "1905.0" = Some 1905.
Proof.
  exact (proj2 (proj2 (year_int_reads_four "1905.0"))
           "1"%char "9"%char "0"%char "5"%char ".0" eq_refl eq_refl eq_refl eq_refl eq_refl).
Defined.

Section TitleFacts.
Import Discovery Catalog.

Lemma normalised_char (c : ascii) :
  loose_char (punct_to_space (unicode_lower_char c)) = true.
Proof. by destruct c as [[] [] [] [] [] [] [] []]. Qed.

Lemma title_char_fixed (c : ascii) :
  title_char c = true ->
  unicode_lower_char c = c /\ punct_to_space c = c
  /\ (unicode_space c = true -> c = " "%char).
Proof. destruct c as [[] [] [] [] [] [] [] []]; cbn; intros H; try discriminate H; done. Qed.

Lemma loose_char_title (c : ascii) :
  loose_char c = true -> unicode_space c = false -> title_char c = true.
Proof.
  unfold loose_char, title_char. intros H Hs. rewrite Hs in *.
  rewrite orb_false_r in H. by rewrite H.
Qed.

Lemma lowered_loose (s : string) :
  Py.all_chars loose_char (map_chars punct_to_space (map_chars unicode_lower_char s)) = true.
Proof. induction s as [|c s IH]; [done|]. cbn. by rewrite normalised_char, IH. Qed.

Lemma collapse_spaces_shape (s : string) :
  forall in_run,
    Py.all_chars loose_char s = true ->
    Py.all_chars title_char (collapse_spaces in_run s) = true
    /\ isolated_blanks in_run (collapse_spaces in_run s) = true.
Proof.
  induction s as [|c s IH]; intros in_run; [done|].
  cbn [Py.all_chars collapse_spaces]. intros [Hc Hs]%andb_true_iff.
  destruct (unicode_space c) eqn:Hsp.
  - destruct in_run; [by apply IH|].
    destruct (IH true Hs) as [Ha Hi]. cbn [Py.all_chars isolated_blanks].
    by rewrite Ha, Hi.
  - destruct (IH false Hs) as [Ha Hi]. cbn [Py.all_chars isolated_blanks].
    by rewrite Hsp, Ha, Hi, (loose_char_title c Hc Hsp).
Qed.

Lemma collapse_spaces_fixed (s : string) :
  forall in_run,
    isolated_blanks in_run s = true -> collapse_spaces in_run s = s.
Proof.
  induction s as [|c s IH]; intros in_run; [done|].
  cbn [isolated_blanks collapse_spaces].
  destruct (unicode_space c) eqn:Hsp.
  - intros [[Hc Hrun]%andb_true_iff Hs]%andb_true_iff.
    apply negb_true_iff in Hrun as ->. apply Ascii.eqb_eq in Hc as ->.
    by rewrite (IH true Hs).
  - intros Hs. by rewrite (IH false Hs).
Qed.

Lemma isolated_blanks_lstrip (s : string) :
  forall b b', isolated_blanks b s = true ->
               isolated_blanks b' (Py.lstrip_by unicode_space s) = true.
Proof.
  induction s as [|c s IH]; intros b b'; [done|].
  cbn [isolated_blanks Py.lstrip_by]. destruct (unicode_space c) eqn:Hsp.
  - intros [_ Hs]%andb_true_iff. by eapply IH.
  - intros Hs. cbn [isolated_blanks]. by rewrite Hsp.
Qed.

Lemma isolated_blanks_rstrip (s : string) :
  forall b, isolated_blanks b s = true ->
            isolated_blanks b (Py.rstrip_by unicode_space s) = true.
Proof.
  induction s as [|c s IH]; intros b; [done|].
  cbn [isolated_blanks Py.rstrip_by]. destruct (unicode_space c) eqn:Hsp.
  - intros [Hc Hs]%andb_true_iff. specialize (IH true Hs).
    destruct (Py.rstrip_by unicode_space s) as [|d t]; [done|].
    cbn [isolated_blanks] in *. by rewrite Hsp, Hc, IH.
  - intros Hs. specialize (IH false Hs).
    destruct (Py.rstrip_by unicode_space s) as [|d t].
    + cbn. by rewrite Hsp.
    + cbn [isolated_blanks] in *. by rewrite Hsp, IH.
Qed.

Lemma lstrip_by_head (p : ascii -> bool) (s : string) :
  match Py.lstrip_by p s with
  | String c _ => p c = false
  | EmptyString => True
  end.
Proof. induction s as [|c s IH]; [done|]. cbn. destruct (p c) eqn:Hc; [exact IH | done]. Qed.

Lemma rstrip_by_head (p : ascii -> bool) (s : string) :
  match s with String c _ => p c = false | EmptyString => True end ->
  match Py.rstrip_by p s with String c _ => p c = false | EmptyString => True end
  /\ Py.lstrip_by p (Py.rstrip_by p s) = Py.rstrip_by p s.
Proof.
  destruct s as [|c s]; [done|]. intros Hc. cbn [Py.rstrip_by].
  destruct (Py.rstrip_by p s) as [|d t]; rewrite ?Hc; cbn; by rewrite Hc.
Qed.

Lemma rstrip_by_idem (p : ascii -> bool) (s : string) :
  Py.rstrip_by p (Py.rstrip_by p s) = Py.rstrip_by p s.
Proof.
  induction s as [|c s IH]; [done|]. cbn [Py.rstrip_by].
  destruct (Py.rstrip_by p s) as [|d t] eqn:Hr.
  - destruct (p c) eqn:Hc; [done|]. cbn. by rewrite Hc.
  - cbn [Py.rstrip_by] in *. by rewrite IH.
Qed.

Lemma strip_by_idem (p : ascii -> bool) (s : string) :
  Py.strip_by p (Py.strip_by p s) = Py.strip_by p s.
Proof.
  unfold Py.strip_by.
  destruct (rstrip_by_head p (Py.lstrip_by p s) (lstrip_by_head p s)) as [_ ->].
  apply rstrip_by_idem.
Qed.

Lemma title_chars_fixed (t : string) :
  Py.all_chars title_char t = true ->
  map_chars punct_to_space (map_chars unicode_lower_char t) = t.
Proof.
  induction t as [|c t IH]; [done|]. cbn [Py.all_chars].
  intros [Hc Ht]%andb_true_iff. cbn.
  destruct (title_char_fixed c Hc) as (-> & -> & _). by rewrite IH.
Qed.

Lemma norm_title_fixed (t : string) :
  normal_title t = true -> norm_title (Some t) = t.
Proof.
  unfold normal_title, norm_title.
  intros [[Hchars Hiso]%andb_true_iff Hstrip]%andb_true_iff.
  cbn [Py.or_empty]. rewrite title_chars_fixed, collapse_spaces_fixed by done.
  by apply String.eqb_eq.
Qed.

Lemma norm_title_normal (x : option string) : normal_title (norm_title x) = true.
Proof.
  unfold normal_title, norm_title. cbn zeta.
  destruct (collapse_spaces_shape _ false (lowered_loose (Py.or_empty x))) as [Hchars Hiso].
  rewrite !andb_true_iff. repeat split.
  - by apply all_chars_strip_by.
  - unfold Py.strip_by.
    by eapply isolated_blanks_rstrip, isolated_blanks_lstrip.
  - apply String.eqb_eq. apply strip_by_idem.
Qed.

Lemma unicode_lower_char_idem (c : ascii) :
  unicode_lower_char (unicode_lower_char c) = unicode_lower_char c.
Proof. by destruct c as [[] [] [] [] [] [] [] []]. Qed.

Lemma norm_title_lower (t : string) :
  norm_title (Some (map_chars unicode_lower_char t)) = norm_title (Some t).
Proof.
  unfold norm_title. cbn [Py.or_empty]. do 3 f_equal.
  induction t as [|c t IH]; [done|]. cbn [map_chars].
  by rewrite unicode_lower_char_idem, IH.
Qed.

(** X18.  On titles made of the code points below U+0100, [norm_title]
    always returns a normalised title: word characters that [str.lower]
    leaves alone, separated by single blanks, with no white space at
    either end.  On such a title it changes nothing, so normalising twice
    is the same as normalising once; it ignores letter case, also of the
    accented letters; and a missing title normalises to the empty
    string. *)
Theorem norm_title_idempotent (x : option string) :
  normal_title (norm_title x) = true
  /\ norm_title (Some (norm_title x)) = norm_title x
  /\ (forall t, normal_title t = true -> norm_title (Some t) = t)
  /\ (forall t, norm_title (Some (map_chars unicode_lower_char t)) = norm_title (Some t))
  /\ norm_title None = "".
Proof.
  split; [apply norm_title_normal|]. split; [apply norm_title_fixed, norm_title_normal|].
  split; [apply norm_title_fixed|]. split; [apply norm_title_lower | reflexivity].
Qed.

End TitleFacts.

(** ** Discovery tool: comparison with the master catalogue *)
Section MasterFacts.
Import Discovery Catalog.

Lemma truthy_iff (s : string) : Py.truthy s = true <-> s <> "".
Proof. by destruct s. Qed.

Lemma fold_left_missing_step (hb hd : gset string) (bk : gset (string * option Z))
    (cands : list Row) :
  forall acc,
    fold_left (missing_step hb hd bk) cands acc
    = acc ++ List.filter (fun r => negb (in_master_sets hb hd bk r)) cands.
Proof.
  induction cands as [|r cands IH]; intros acc; cbn [fold_left List.filter].
  - by rewrite app_nil_r.
  - rewrite IH. unfold missing_step, in_master_sets. cbn zeta.
    destruct (Py.truthy (bib_key r) && bool_decide (bib_key r ∈ hb)); [done|].
    destruct (Py.truthy (doi_key r) && bool_decide (doi_key r ∈ hd)); [done|].
    destruct (bool_decide (_ ∈ bk)); cbn; [done|]. by rewrite <- app_assoc.
Qed.

Lemma elem_of_have_bib (master : list MasterRow) (b : string) :
  b ∈ have_bib master <-> b <> "" /\ exists m, m ∈ master /\ m_bibcode m = b.
Proof.
  unfold have_bib.
  rewrite elem_of_list_to_set, list_elem_of_In, List.filter_In, <- list_elem_of_In,
    list_elem_of_fmap, truthy_iff.
  split.
  - intros [(m & Hb & Hm) Hne]. split; [done|]. exists m. by split.
  - intros (Hne & m & Hm & Hb). split; [|done]. exists m. by split.
Qed.

Lemma elem_of_have_doi (master : list MasterRow) (d : string) :
  d ∈ have_doi master <->
  exists m, m ∈ master /\ m_doi m <> "" /\ Py.lower (m_doi m) = d.
Proof.
  unfold have_doi. rewrite elem_of_list_to_set, list_elem_of_fmap. split.
  - intros (x & -> & Hx).
    apply list_elem_of_In, List.filter_In in Hx as [Hx Hne].
    apply list_elem_of_In, list_elem_of_fmap in Hx as (m & -> & Hm).
    exists m. by rewrite <- truthy_iff.
  - intros (m & Hm & Hne & <-). exists (m_doi m). split; [done|].
    apply list_elem_of_In, List.filter_In. split.
    + apply list_elem_of_In, list_elem_of_fmap. eauto.
    + by apply truthy_iff.
Qed.

Lemma elem_of_buckets_of (m : MasterRow) (t : string) (y : option Z) :
  (t, y) ∈ buckets_of m <->
  norm_title (Some (m_title m)) = t /\ year_near (year_int (m_year m)) y.
Proof.
  unfold buckets_of. cbn zeta. cbn [fmap list_fmap].
  rewrite !elem_of_cons, elem_of_nil, !pair_equal_spec.
  destruct (year_int (m_year m)) as [a|], y as [b|]; cbn; split.
  - intros [[-> [= ->]] | [[-> [= ->]] | [[-> [= ->]] | []]]]; (split; [done|lia]).
  - intros [<- [-> | [-> | ->]]]; [left | right; left | right; right; left];
      (split; [done | f_equal; lia]).
  - intros [[_ [=]] | [[_ [=]] | [[_ [=]] | []]]].
  - intros [_ []].
  - intros [[_ [=]] | [[_ [=]] | [[_ [=]] | []]]].
  - intros [_ []].
  - intros [[-> _] | [[-> _] | [[-> _] | []]]]; done.
  - intros [<- _]. by left.
Qed.

Lemma elem_of_fold_buckets (master : list MasterRow) (x : string * option Z) :
  forall acc : gset (string * option Z),
    x ∈ fold_left (fun s m => s ∪ list_to_set (buckets_of m)) master acc
    <-> x ∈ acc \/ exists m, m ∈ master /\ x ∈ buckets_of m.
Proof.
  induction master as [|m master IH]; intros acc; cbn [fold_left].
  - split; [by left|]. intros [?|(m & Hm & _)]; [done|]. by apply elem_of_nil in Hm.
  - rewrite IH, elem_of_union, elem_of_list_to_set. split.
    + intros [[?|?] | (m' & Hm' & ?)]; [by left | right | right].
      * exists m. split; [apply elem_of_cons; by left | done].
      * exists m'. split; [apply elem_of_cons; by right | done].
    + intros [? | (m' & [->|Hm']%elem_of_cons & ?)]; [by left; left | by left; right |].
      right. eauto.
Qed.

Lemma in_master_sets_iff (master : list MasterRow) (r : Row) :
  in_master_sets (have_bib master) (have_doi master) (base_buckets master) r = true
  <-> in_master master r.
Proof.
  unfold in_master_sets, in_master, base_buckets.
  rewrite !orb_true_iff, !andb_true_iff, !bool_decide_eq_true, !truthy_iff,
    elem_of_have_bib, elem_of_have_doi, elem_of_fold_buckets.
  setoid_rewrite elem_of_buckets_of.
  split.
  - intros [[[Hb [_ Hm]] | [Hd Hm]] | [Hempty | Hm]]; auto.
    by apply not_elem_of_empty in Hempty.
  - intros [[Hb Hm] | [[Hd Hm] | Hm]]; auto.
Qed.

Lemma filter_sublist {A : Type} (f : A -> bool) (l : list A) :
  List.filter f l `sublist_of` l.
Proof.
  induction l as [|x l IH]; cbn; [constructor|].
  destruct (f x); by constructor.
Qed.

Lemma filter_filter_same {A : Type} (f : A -> bool) (l : list A) :
  List.filter f (List.filter f l) = List.filter f l.
Proof.
  induction l as [|x l IH]; cbn; [done|].
  destruct (f x) eqn:Hx; cbn; [by rewrite Hx, IH | done].
Qed.

Lemma missing_vs_master_filter (cands : list Row) (master : list MasterRow) :
  missing_vs_master cands master
  = List.filter (fun r => negb (in_master_sets (have_bib master) (have_doi master)
                                  (base_buckets master) r)) cands.
Proof. unfold missing_vs_master. by rewrite fold_left_missing_step. Qed.

(** X19.  [missing_vs_master] returns, in input order, exactly the
    candidates that the master does not have: a candidate is left out when
    the master holds its bibcode, or its DOI (letter case ignored), or a
    row with the same normalised title, as [norm_title] computes it, whose
    year is the same, one less or one more (or unreadable like the
    candidate's).  With an empty master every candidate is returned, and
    filtering twice changes nothing. *)
Theorem missing_vs_master_spec (cands : list Row) (master : list MasterRow) :
  missing_vs_master cands master `sublist_of` cands
  /\ (forall r, r ∈ missing_vs_master cands master <->
                r ∈ cands /\ ~ in_master master r)
  /\ missing_vs_master cands [] = cands
  /\ missing_vs_master (missing_vs_master cands master) master
     = missing_vs_master cands master.
Proof.
  rewrite !missing_vs_master_filter. split; [apply filter_sublist|]. split; [|split].
  - intros r. rewrite list_elem_of_In, List.filter_In, <- list_elem_of_In,
      negb_true_iff, <- not_true_iff_false, in_master_sets_iff. done.
  - induction cands as [|r cands IH]; [done|]. cbn [List.filter].
    assert (Hno : in_master_sets (have_bib []) (have_doi []) (base_buckets []) r = false).
    { apply not_true_iff_false. rewrite in_master_sets_iff.
      intros [[_ (m & Hm & _)] | [[_ (m & Hm & _)] | (m & Hm & _)]];
        by apply elem_of_nil in Hm. }
    rewrite Hno. cbn [negb]. f_equal. exact IH.
  - apply filter_filter_same.
Qed.

End MasterFacts.
